(** * Microgrid energy monitoring dashboard: the client's session store,
      data synchronisation and alert views

    A shallow embedding of the JavaScript sources
    - [frontend/src/store/authStore.js]      (module [AuthStore]),
    - [frontend/src/components/Dashboard.js] (module [Dashboard]),
    - the [ComprehensiveDashboard] component  (module [ComprehensiveDashboard]),
    - the [AlertsPage], [AlertsPageSimple] and [AlertsPageDebug] components,
    followed by the properties of these definitions.

    JavaScript numbers are IEEE 754 binary64 values and are modelled by the
    primitive type [float]; strings are modelled by [string]; an [async]
    function is modelled by a computation in a state-and-exception monad
    that takes the settled outcome of every promise it awaits as an
    argument.  Library functions whose result depends on data outside the
    program ([JSON.parse], the parsing of a date, the case mapping of
    [toLowerCase]) are parameters of the definitions that call them. *)

From Stdlib Require Import ZArith Floats Ascii String List Permutation Bool Lia.
From Stdlib Require Import Sorting.Sorted.
From stdpp Require Import base option list strings gmap.

Local Open Scope string_scope.
Set Warnings "-register-all".

(** ** The fragment of the JavaScript run time the sources rely on *)

Module Js.

(** Data that travels in HTTP bodies, WebSocket frames and React state. *)
Inductive value : Type :=
| Undefined
| Null
| Bool (b : bool)
| Num (x : float)
| Str (s : string)
| Arr (items : list value)
| Obj (props : list (string * value)).

(** An [Error] object; only its [message] is ever read by the sources. *)
Record Error : Type := mkError { message : string }.

(** The settled state of a promise. *)
Inductive settled (A : Type) : Type :=
| Fulfilled (a : A)
| Rejected (reason : Error).
Arguments Fulfilled {A} a.
Arguments Rejected {A} reason.

Definition is_nan (x : float) : bool := negb (PrimFloat.eqb x x).

(** ToBoolean. *)
Definition truthy (v : value) : bool :=
  match v with
  | Undefined | Null => false
  | Bool b => b
  | Num x => negb (PrimFloat.eqb x 0%float || is_nan x)
  | Str s => negb (String.eqb s "")
  | Arr _ | Obj _ => true
  end.

(** [Array.isArray]. *)
Definition isArray (v : value) : bool :=
  match v with Arr _ => true | _ => false end.

(** [a || b]. *)
Definition or_else (a b : value) : value := if truthy a then a else b.

Fixpoint assoc (props : list (string * value)) (k : string) : option value :=
  match props with
  | [] => None
  | (k', v) :: rest => if String.eqb k' k then Some v else assoc rest k
  end.

(** Reading [v.k] for a property name [k] that no built-in prototype
    defines (every read of a payload in the sources uses such a name:
    [type], [readings], [alerts]).  Reading a property of [undefined] or
    [null] throws a [TypeError]; on every other value a missing property
    reads as [undefined]. *)
Definition get (v : value) (k : string) : Error + value :=
  match v with
  | Undefined =>
      inl (mkError ("Cannot read properties of undefined (reading '" ++ k ++ "')"))
  | Null =>
      inl (mkError ("Cannot read properties of null (reading '" ++ k ++ "')"))
  | Obj props => inr (default Undefined (assoc props k))
  | _ => inr Undefined
  end.

(** The [TypeError], if any, that reading [v.k] throws, for any name [k]. *)
Definition read_check (v : value) (k : string) : Error + unit :=
  match get v k with
  | inl e => inl e
  | inr _ => inr tt
  end.

(** [a === b] against a string literal. *)
Definition is_string (v : value) (lit : string) : bool :=
  match v with Str s => String.eqb s lit | _ => false end.

(** *** Object literals with number-valued properties

    [o[k]] on an object literal finds an own property or, failing that,
    whatever [Object.prototype] defines under [k]. *)
Inductive slot : Type :=
| SUndefined
| SNum (x : float)
| SBuiltin (name : string)   (* a built-in function object *)
| SObjectPrototype.          (* the object %Object.prototype% itself *)

Definition Object_prototype_methods : list string :=
  [ "hasOwnProperty"; "isPrototypeOf"; "propertyIsEnumerable";
    "toLocaleString"; "toString"; "valueOf";
    "__defineGetter__"; "__defineSetter__";
    "__lookupGetter__"; "__lookupSetter__" ].

Definition Object_prototype_get (k : string) : slot :=
  if String.eqb k "constructor" then SBuiltin "Object"
  else if String.eqb k "__proto__" then SObjectPrototype
  else if existsb (String.eqb k) Object_prototype_methods then SBuiltin k
  else SUndefined.

Definition literal_get (own : gmap string float) (k : string) : slot :=
  match own !! k with
  | Some x => SNum x
  | None => Object_prototype_get k
  end.

(** ToPrimitive with hint number, on a [slot]. *)
Inductive primitive : Type :=
| PUndefined
| PNum (x : float)
| PStr (s : string).

Definition to_primitive (v : slot) : primitive :=
  match v with
  | SUndefined => PUndefined
  | SNum x => PNum x
  | SBuiltin name => PStr ("function " ++ name ++ "() { [native code] }")
  | SObjectPrototype => PStr "[object Object]"
  end.

(** ToNumber on those primitives.  The only strings [to_primitive] produces
    are the source text of a built-in function and ["[object Object]"];
    neither is a numeric literal, so both convert to NaN. *)
Definition to_number (p : primitive) : float :=
  match p with
  | PNum x => x
  | PUndefined | PStr _ => nan
  end.

(** Lexicographic comparison by code units: [s < t]. *)
Fixpoint string_lt (s t : string) : bool :=
  match s, t with
  | _, EmptyString => false
  | EmptyString, String _ _ => true
  | String a s', String b t' =>
      if (nat_of_ascii a <? nat_of_ascii b)%nat then true
      else if (nat_of_ascii b <? nat_of_ascii a)%nat then false
      else string_lt s' t'
  end.

(** IsLessThan: [Some b] for a boolean answer, [None] for undefined. *)
Definition is_less_than (a b : slot) : option bool :=
  match to_primitive a, to_primitive b with
  | PStr s, PStr t => Some (string_lt s t)
  | pa, pb =>
      let x := to_number pa in
      let y := to_number pb in
      if is_nan x || is_nan y then None else Some (PrimFloat.ltb x y)
  end.

(** [a >= b]: false when IsLessThan(a, b) is true or undefined. *)
Definition ge (a b : slot) : bool :=
  match is_less_than a b with
  | Some false => true
  | Some true | None => false
  end.

(** *** Strings *)

Definition lower_ascii (c : ascii) : ascii :=
  let n := nat_of_ascii c in
  if ((65 <=? n) && (n <=? 90))%nat then ascii_of_nat (n + 32) else c.

(** [toLowerCase] on ASCII text. *)
Fixpoint toLowerCase (s : string) : string :=
  match s with
  | EmptyString => EmptyString
  | String c s' => String (lower_ascii c) (toLowerCase s')
  end.

Fixpoint starts_with (s t : string) {struct t} : bool :=
  match t, s with
  | EmptyString, _ => true
  | String _ _, EmptyString => false
  | String b t', String a s' => Ascii.eqb a b && starts_with s' t'
  end.

(** [s.includes(t)]. *)
Fixpoint includes (s t : string) : bool :=
  starts_with s t ||
  match s with
  | EmptyString => false
  | String _ s' => includes s' t
  end.

End Js.

(** ** Async functions: state and exceptions *)

Module Eff.

Inductive completion (A : Type) : Type :=
| Normal (a : A)
| Throw (e : Js.Error).
Arguments Normal {A} a.
Arguments Throw {A} e.

Definition M (S A : Type) : Type := S -> completion A * S.

Definition ret {S A} (a : A) : M S A := fun s => (Normal a, s).

Definition bind {S A B} (m : M S A) (k : A -> M S B) : M S B :=
  fun s =>
    match m s with
    | (Normal a, s') => k a s'
    | (Throw e, s') => (Throw e, s')
    end.

Definition throw {S A} (e : Js.Error) : M S A := fun s => (Throw e, s).

(** A state setter. *)
Definition modify {S} (f : S -> S) : M S unit := fun s => (Normal tt, f s).

(** [await p]: the value of a fulfilled promise, or its rejection thrown. *)
Definition await {S A} (p : Js.settled A) : M S A :=
  match p with
  | Js.Fulfilled a => ret a
  | Js.Rejected e => throw e
  end.

(** A value or a thrown error, as a computation. *)
Definition lift {S A} (r : Js.Error + A) : M S A :=
  match r with
  | inr a => ret a
  | inl e => throw e
  end.

(** [try { body } catch (e) { handler e }]. *)
Definition try_catch {S A} (body : M S A) (handler : Js.Error -> M S A) : M S A :=
  fun s =>
    match body s with
    | (Normal a, s') => (Normal a, s')
    | (Throw e, s') => handler e s'
    end.

(** [try { body } finally { cleanup }]. *)
Definition try_finally {S A} (body : M S A) (cleanup : M S unit) : M S A :=
  fun s =>
    match body s with
    | (r, s') =>
        match cleanup s' with
        | (Normal _, s'') => (r, s'')
        | (Throw e, s'') => (Throw e, s'')
        end
    end.

(** The state a computation leaves behind. *)
Definition exec {S A} (m : M S A) (s : S) : S := snd (m s).

Declare Scope eff_scope.
Delimit Scope eff_scope with eff.
Notation "x ← y ; z" := (bind y (fun x => z))
  (at level 20, y at level 100, z at level 200, only parsing) : eff_scope.
Notation "x ;; z" := (bind x (fun _ => z))
  (at level 100, z at level 200, only parsing, right associativity) : eff_scope.

End Eff.

(** ** The session store: [frontend/src/store/authStore.js] *)

Module AuthStore.
Import Eff.

Record User : Type := mkUser {
  id : Z;
  username : string;
  email : option string;
  role : option string;        (* [None]: the property is missing *)
  is_active : option bool
}.

(** The data fields of the store ([null] is [None]). *)
Record AuthState : Type := mkAuthState {
  user : option User;
  token : option string;
  isAuthenticated : bool;
  isLoading : bool;
  error : option string
}.

Definition initial : AuthState :=
  {| user := None; token := None; isAuthenticated := false;
     isLoading := false; error := None |}.

(** The argument of zustand's [set]: the properties present in the object
    are overwritten, all others are kept. *)
Record Patch : Type := mkPatch {
  set_user : option (option User);
  set_token : option (option string);
  set_isAuthenticated : option bool;
  set_isLoading : option bool;
  set_error : option (option string)
}.

Definition merge (p : Patch) (s : AuthState) : AuthState :=
  {| user := default (user s) (set_user p);
     token := default (token s) (set_token p);
     isAuthenticated := default (isAuthenticated s) (set_isAuthenticated p);
     isLoading := default (isLoading s) (set_isLoading p);
     error := default (error s) (set_error p) |}.

Definition set (p : Patch) : M AuthState unit := modify (merge p).

(** The body of a successful reply of [POST /auth/login]. *)
Record LoginData : Type := mkLoginData {
  data_user : option User;
  access_token : option string
}.

(** The [fetch] response: its [ok] flag and the outcome of [response.json()]
    ([Fulfilled None] is the JSON text [null]). *)
Record Response : Type := mkResponse {
  ok : bool;
  json : Js.settled (option LoginData)
}.

Record LoginResult : Type := mkLoginResult {
  success : bool;
  result_error : option string
}.

Section Login.

(** What the network answers to the [POST /auth/login] of this call, with
    the given username and password.  Every call fetches anew: two calls
    in a row each come with their own [backend]. *)
Variable backend : string -> string -> Js.settled Response.

Definition login (username password : string) : M AuthState LoginResult :=
  (set {| set_user := None; set_token := None; set_isAuthenticated := None;
          set_isLoading := Some true; set_error := Some None |} ;;
   try_catch
     (response ← await (backend username password);
      (if negb (ok response)
       then throw (Js.mkError "Invalid credentials")
       else ret tt) ;;
      data ← await (json response);
      data ← match data with
              | Some d => ret d
              | None => throw (Js.mkError
                          "Cannot read properties of null (reading 'user')")
              end;
      set {| set_user := Some (data_user data);
             set_token := Some (access_token data);
             set_isAuthenticated := Some true;
             set_isLoading := Some false;
             set_error := Some None |} ;;
      ret {| success := true; result_error := None |})
     (fun error =>
        set {| set_user := None; set_token := None;
               set_isAuthenticated := None;
               set_isLoading := Some false;
               set_error := Some (Some (Js.message error)) |} ;;
        ret {| success := false;
               result_error := Some (Js.message error) |}))%eff.

End Login.

Definition logout : M AuthState unit :=
  set {| set_user := Some None;
         set_token := Some None;
         set_isAuthenticated := Some false;
         set_isLoading := None;
         set_error := Some None |}.

Definition clearError : M AuthState unit :=
  set {| set_user := None; set_token := None; set_isAuthenticated := None;
         set_isLoading := None; set_error := Some None |}.

(** [mockLogin(role = 'operator')]: [None] is an omitted argument. *)
Definition mockLogin (role_arg : option string) : M AuthState unit :=
  let role := default "operator" role_arg in
  let mockUser :=
    {| id := 1;
       username := if String.eqb role "admin" then "admin" else "operator";
       email := Some (role ++ "@microgrid.com");
       role := Some role;
       is_active := Some true |} in
  set {| set_user := Some (Some mockUser);
         set_token := Some (Some "mock-jwt-token");
         set_isAuthenticated := Some true;
         set_isLoading := Some false;
         set_error := Some None |}.

Definition roleHierarchy : gmap string float :=
  {[ "operator" := 1%float; "admin" := 2%float ]}.

(** The property key [user.role] converts to. *)
Definition role_key (r : option string) : string :=
  match r with
  | Some name => name
  | None => "undefined"
  end.

Definition hasRole (requiredRole : string) (s : AuthState) : bool :=
  match user s with
  | None => false
  | Some u =>
      Js.ge (Js.literal_get roleHierarchy (role_key (role u)))
            (Js.literal_get roleHierarchy requiredRole)
  end.

End AuthStore.

(** ** The REST client: [frontend/src/services/api.js] *)

Module Api.

(** An axios response; the sources read only its [data], the parsed body. *)
Record AxiosResponse : Type := mkAxiosResponse { data : Js.value }.

(** [Promise.all]: fulfilled with all the values when every promise is
    fulfilled, rejected when one is rejected.  (Which rejection reason is
    passed on depends on timing; the callers only log it.) *)
Fixpoint Promise_all {A} (ps : list (Js.settled A)) : Js.settled (list A) :=
  match ps with
  | [] => Js.Fulfilled []
  | Js.Rejected e :: _ => Js.Rejected e
  | Js.Fulfilled a :: rest =>
      match Promise_all rest with
      | Js.Fulfilled l => Js.Fulfilled (a :: l)
      | Js.Rejected e => Js.Rejected e
      end
  end.

(** The methods of the exported [apiService] object.  (The axios instance
    [api], which has [get] and [post], is the default export.) *)
Definition apiService : list string :=
  [ "getSensorData"; "getLatestSensorData"; "postSensorData"; "getAlerts";
    "resolveAlert"; "getSystemStatus"; "getAnalytics"; "healthCheck" ].

(** The call [apiService.name(...)] of a name that is no method of the
    object, nor a property of [Object.prototype]: the property is
    [undefined], and calling it throws a TypeError. *)
Definition apiService_method (name : string) : Js.Error + unit :=
  if existsb (String.eqb name) apiService then inr tt
  else inl (Js.mkError ("apiService." ++ name ++ " is not a function")).

End Api.

(** ** [frontend/src/components/Dashboard.js] *)

Module Dashboard.
Import Eff Api.

Record State : Type := mkState {
  sensorData : Js.value;
  latestData : Js.value;
  alerts : Js.value;
  systemStatus : Js.value;
  analytics : Js.value;
  loading : bool;
  error : option string;
  lastUpdate : option Z       (* the time value of the [Date], or [null] *)
}.

Definition initial : State :=
  {| sensorData := Js.Arr []; latestData := Js.Null; alerts := Js.Arr [];
     systemStatus := Js.Null; analytics := Js.Null; loading := true;
     error := None; lastUpdate := None |}.

Definition setSensorData (v : Js.value) : M State unit :=
  modify (fun s => mkState v (latestData s) (alerts s) (systemStatus s)
                     (analytics s) (loading s) (error s) (lastUpdate s)).
Definition setLatestData (v : Js.value) : M State unit :=
  modify (fun s => mkState (sensorData s) v (alerts s) (systemStatus s)
                     (analytics s) (loading s) (error s) (lastUpdate s)).
Definition setAlerts (v : Js.value) : M State unit :=
  modify (fun s => mkState (sensorData s) (latestData s) v (systemStatus s)
                     (analytics s) (loading s) (error s) (lastUpdate s)).
Definition setSystemStatus (v : Js.value) : M State unit :=
  modify (fun s => mkState (sensorData s) (latestData s) (alerts s) v
                     (analytics s) (loading s) (error s) (lastUpdate s)).
Definition setAnalytics (v : Js.value) : M State unit :=
  modify (fun s => mkState (sensorData s) (latestData s) (alerts s)
                     (systemStatus s) v (loading s) (error s) (lastUpdate s)).
Definition setLoading (b : bool) : M State unit :=
  modify (fun s => mkState (sensorData s) (latestData s) (alerts s)
                     (systemStatus s) (analytics s) b (error s) (lastUpdate s)).
Definition setError (e : option string) : M State unit :=
  modify (fun s => mkState (sensorData s) (latestData s) (alerts s)
                     (systemStatus s) (analytics s) (loading s) e (lastUpdate s)).
Definition setLastUpdate (d : option Z) : M State unit :=
  modify (fun s => mkState (sensorData s) (latestData s) (alerts s)
                     (systemStatus s) (analytics s) (loading s) (error s) d).

(** How the five requests of one cycle settle, in the order in which
    [fetchData] hands them to [Promise.all], and the clock reading that
    [new Date()] takes. *)
Record Cycle : Type := mkCycle {
  getSensorData : Js.settled AxiosResponse;        (* hours: 6 *)
  getLatestSensorData : Js.settled AxiosResponse;
  getAlerts : Js.settled AxiosResponse;            (* active_only: true *)
  getSystemStatus : Js.settled AxiosResponse;
  getAnalytics : Js.settled AxiosResponse;         (* 24 *)
  now : Z
}.

Definition connection_error : string :=
  "Failed to fetch data. Please ensure the backend is running.".

(** The array handed to [Promise.all]. *)
Definition promises (c : Cycle) : list (Js.settled AxiosResponse) :=
  [ getSensorData c; getLatestSensorData c; getAlerts c;
    getSystemStatus c; getAnalytics c ].

Definition fetchData (c : Cycle) : M State unit :=
  (try_finally
     (try_catch
        (setError None ;;
         responses ← await (Promise_all (promises c));
         match responses with
         | [ sensorResponse; latestResponse; alertsResponse;
             statusResponse; analyticsResponse ] =>
             setSensorData (data sensorResponse) ;;
             setLatestData (data latestResponse) ;;
             setAlerts (data alertsResponse) ;;
             setSystemStatus (data statusResponse) ;;
             setAnalytics (data analyticsResponse) ;;
             setLastUpdate (Some (now c))
         | _ =>
             throw (Js.mkError
               "Cannot read properties of undefined (reading 'data')")
         end)
        (fun err => setError (Some connection_error)))
     (setLoading false))%eff.

(** The arguments of [calculateTrend]: a field of a sensor reading, or
    what [previousData?.field] gives when there is no previous reading. *)
Inductive reading : Type :=
| RUndefined
| RNull
| RNum (x : float).

Definition truthy (r : reading) : bool :=
  match r with
  | RUndefined | RNull => false
  | RNum x => negb (PrimFloat.eqb x 0%float || Js.is_nan x)
  end.

(** [r === 0]. *)
Definition is_zero (r : reading) : bool :=
  match r with
  | RNum x => PrimFloat.eqb x 0%float
  | _ => false
  end.

(** ToNumber. *)
Definition to_number (r : reading) : float :=
  match r with
  | RUndefined => nan
  | RNull => 0%float
  | RNum x => x
  end.

Definition calculateTrend (current previous : reading) : float :=
  if negb (truthy previous) || is_zero previous then 0%float
  else (((to_number current - to_number previous) / to_number previous)
        * 100)%float.

(** *** [calculateTrend] on any value

    The fields of a reading come out of a JSON body, which can carry any
    value under a name.  ToNumber of a string is worked out here for the
    strings of one to fifteen decimal digits, whose value is a number that
    [float] holds exactly; for every other string it is [StringToNumber].
    Arrays and objects go through ToPrimitive, which can throw (an object
    of a JSON body can have own properties [valueOf] and [toString] that
    are no functions): their conversion is [ObjectToNumber]. *)
Fixpoint digits (acc : Z) (s : string) : option Z :=
  match s with
  | EmptyString => Some acc
  | String c s' =>
      let n := Z.of_nat (nat_of_ascii c) in
      if ((48 <=? n) && (n <=? 57))%Z then digits (10 * acc + (n - 48)) s'
      else None
  end.

Definition short_decimal (s : string) : option Z :=
  if ((0 <? String.length s) && (String.length s <=? 15))%nat
  then digits 0 s else None.

Section AnyValue.
Variable StringToNumber : string -> float.
Variable ObjectToNumber : Js.value -> Js.Error + float.

Definition ToNumber (v : Js.value) : Js.Error + float :=
  match v with
  | Js.Undefined => inr nan
  | Js.Null => inr 0%float
  | Js.Bool b => inr (if b then 1%float else 0%float)
  | Js.Num x => inr x
  | Js.Str s =>
      match short_decimal s with
      | Some n => inr (PrimFloat.of_uint63 (Uint63.of_Z n))
      | None => inr (StringToNumber s)
      end
  | Js.Arr _ | Js.Obj _ => ObjectToNumber v
  end.

(** [v === 0]. *)
Definition strictly_zero (v : Js.value) : bool :=
  match v with
  | Js.Num x => PrimFloat.eqb x 0%float
  | _ => false
  end.

(** The value returned, or the TypeError that a conversion throws. *)
Definition calculateTrend_any (current previous : Js.value)
    : Js.Error + float :=
  if negb (Js.truthy previous) || strictly_zero previous then inr 0%float
  else
    match ToNumber current with
    | inl e => inl e
    | inr c =>
        match ToNumber previous with
        | inl e => inl e
        | inr p => inr (((c - p) / p) * 100)%float
        end
    end.

End AnyValue.

(** A [reading] as a value. *)
Definition value_of (r : reading) : Js.value :=
  match r with
  | RUndefined => Js.Undefined
  | RNull => Js.Null
  | RNum x => Js.Num x
  end.

(** [a > b] and [a < b] on numbers. *)
Definition gt (a b : float) : bool := PrimFloat.ltb b a.
Definition lt (a b : float) : bool := PrimFloat.ltb a b.

Definition getMetricStatus (type : string) (value : float) : string :=
  if String.eqb type "temperature" then
    if gt value 100 then "critical"
    else if gt value 80 then "warning"
    else "good"
  else if String.eqb type "soc" then
    if lt value 15 then "critical"
    else if lt value 30 then "warning"
    else "good"
  else if String.eqb type "voltage" then
    if lt value 180 then "critical"
    else if lt value 200 then "warning"
    else "good"
  else "normal".

(** An element of the sensor history, with the fields the cards read. *)
Record SensorReading : Type := mkSensorReading {
  timestamp : string;
  generation : float;
  storage : float;
  soc : float;
  temperature : float;
  voltage : float
}.

(** [sensorData.length > 1 ? sensorData[sensorData.length - 2] : null]. *)
Definition previousData (sensorData : list SensorReading) : option SensorReading :=
  if (1 <? length sensorData)%nat
  then nth_error sensorData (length sensorData - 2)
  else None.

(** [previousData?.field]. *)
Definition optional (field : SensorReading -> float)
    (previous : option SensorReading) : reading :=
  match previous with
  | Some r => RNum (field r)
  | None => RUndefined
  end.

(** The [trend] handed to the metric card of [field]:
    [calculateTrend(latestData.field, previousData?.field)]. *)
Definition card_trend (field : SensorReading -> float)
    (latestData : SensorReading) (sensorData : list SensorReading) : float :=
  calculateTrend (RNum (field latestData))
                 (optional field (previousData sensorData)).

End Dashboard.

(** ** The [ComprehensiveDashboard] component *)

Module ComprehensiveDashboard.
Import Eff Api.

Record State : Type := mkState {
  activeTab : string;
  systemStatus : Js.value;
  sensorReadings : Js.value;
  alerts : Js.value;
  efficiencyData : Js.value;
  forecastData : Js.value;
  loading : bool;
  error : option string;
  lastUpdate : option Z;
  ws : option nat              (* the socket held in state, or [null] *)
}.

(** What an event handler of the component acts on: the component's state,
    the HTTP requests issued so far and the lines written with
    [console.error] (their first argument), both oldest first. *)
Record World : Type := mkWorld {
  view : State;
  requests : list string;
  console : list string
}.

Definition setView (f : State -> State) : M World unit :=
  modify (fun w => mkWorld (f (view w)) (requests w) (console w)).

Definition setSystemStatus (v : Js.value) : M World unit :=
  setView (fun s => mkState (activeTab s) v (sensorReadings s) (alerts s)
    (efficiencyData s) (forecastData s) (loading s) (error s) (lastUpdate s) (ws s)).
Definition setSensorReadings (v : Js.value) : M World unit :=
  setView (fun s => mkState (activeTab s) (systemStatus s) v (alerts s)
    (efficiencyData s) (forecastData s) (loading s) (error s) (lastUpdate s) (ws s)).
Definition setAlerts (v : Js.value) : M World unit :=
  setView (fun s => mkState (activeTab s) (systemStatus s) (sensorReadings s) v
    (efficiencyData s) (forecastData s) (loading s) (error s) (lastUpdate s) (ws s)).
Definition setEfficiencyData (v : Js.value) : M World unit :=
  setView (fun s => mkState (activeTab s) (systemStatus s) (sensorReadings s)
    (alerts s) v (forecastData s) (loading s) (error s) (lastUpdate s) (ws s)).
Definition setForecastData (v : Js.value) : M World unit :=
  setView (fun s => mkState (activeTab s) (systemStatus s) (sensorReadings s)
    (alerts s) (efficiencyData s) v (loading s) (error s) (lastUpdate s) (ws s)).
Definition setLoading (b : bool) : M World unit :=
  setView (fun s => mkState (activeTab s) (systemStatus s) (sensorReadings s)
    (alerts s) (efficiencyData s) (forecastData s) b (error s) (lastUpdate s) (ws s)).
Definition setError (e : option string) : M World unit :=
  setView (fun s => mkState (activeTab s) (systemStatus s) (sensorReadings s)
    (alerts s) (efficiencyData s) (forecastData s) (loading s) e (lastUpdate s) (ws s)).
Definition setLastUpdate (d : option Z) : M World unit :=
  setView (fun s => mkState (activeTab s) (systemStatus s) (sensorReadings s)
    (alerts s) (efficiencyData s) (forecastData s) (loading s) (error s) d (ws s)).

Definition console_error (line : string) : M World unit :=
  modify (fun w => mkWorld (view w) (requests w) (console w ++ [line])).

(** [apiService.get(url)]: the method is looked up on [apiService] and
    called; were there such a method, the request would leave at the
    call. *)
Definition apiService_get (url : string) : M World unit :=
  (lift (apiService_method "get") ;;
   modify (fun w => mkWorld (view w) (requests w ++ [url]) (console w)))%eff.

(** How the five requests of one cycle would settle, and the clock
    reading. *)
Record Cycle : Type := mkCycle {
  status : Js.settled AxiosResponse;
  sensors : Js.settled AxiosResponse;
  alerts_list : Js.settled AxiosResponse;
  efficiency : Js.settled AxiosResponse;
  forecast : Js.settled AxiosResponse;
  now : Z
}.

Definition connection_error : string :=
  "Failed to fetch data. Please ensure the backend is running.".

(** One pull cycle.  The elements of the array handed to [Promise.all]
    are evaluated, in order, before the [await]. *)
Definition fetchData (c : Cycle) : M World unit :=
  (try_finally
     (try_catch
        (setError None ;;
         apiService_get "/api/system/status" ;;
         apiService_get "/api/sensors/readings" ;;
         apiService_get "/api/alerts?active_only=true" ;;
         apiService_get "/api/analytics/efficiency?hours=24" ;;
         apiService_get "/api/forecasts/summary?hours_ahead=24" ;;
         responses ← await (Promise_all
           [ status c; sensors c; alerts_list c; efficiency c; forecast c ]);
         match responses with
         | [ statusResponse; sensorsResponse; alertsResponse;
             efficiencyResponse; forecastResponse ] =>
             setSystemStatus (data statusResponse) ;;
             readings ← lift (Js.get (data sensorsResponse) "readings");
             setSensorReadings readings ;;
             alerts ← lift (Js.get (data alertsResponse) "alerts");
             setAlerts alerts ;;
             setEfficiencyData (data efficiencyResponse) ;;
             setForecastData (data forecastResponse) ;;
             setLastUpdate (Some (now c))
         | _ =>
             throw (Js.mkError
               "Cannot read properties of undefined (reading 'data')")
         end)
        (fun err =>
           console_error "Error fetching data:" ;;
           setError (Some connection_error)))
     (setLoading false))%eff.

Section WebSocket.

(** [JSON.parse]: the parsed value, or the [SyntaxError] it throws. *)
Variable JSON_parse : string -> Js.Error + Js.value.

(** [websocket.onmessage], applied to [event.data]; [c] is how the
    requests of the [fetchData()] it may call would settle.  The call runs
    [fetchData] as far as its first [await]; [fetchData] ends before it
    gets there (it throws, and handles the throw, at its first
    [apiService.get]), so the call is the whole run.
    The promise that [fetchData()] returns is dropped. *)
Definition onmessage (c : Cycle) (event_data : string) : M World unit :=
  (try_catch
     (message ← lift (JSON_parse event_data);
      type ← lift (Js.get message "type");
      if Js.is_string type "sensor_data" || Js.is_string type "alert"
      then fetchData c
      else ret tt)
     (fun error => console_error "Error parsing WebSocket message:"))%eff.

End WebSocket.

Definition getMetricStatus (type : string) (value : float) : string :=
  if String.eqb type "temperature" then
    if Dashboard.gt value 500 then "critical"
    else if Dashboard.gt value 450 then "warning"
    else "good"
  else if String.eqb type "soc" then
    if Dashboard.lt value 15 then "critical"
    else if Dashboard.lt value 30 then "warning"
    else "good"
  else if String.eqb type "voltage" then
    if Dashboard.lt value 180 then "critical"
    else if Dashboard.lt value 200 then "warning"
    else "good"
  else if String.eqb type "pressure" then
    if Dashboard.gt value 20 then "critical"
    else if Dashboard.gt value 15 then "warning"
    else "good"
  else "normal".

End ComprehensiveDashboard.

(** ** The [AlertsPage] component

    Console output and toasts are not modelled. *)

Module AlertsPage.
Import Eff Api.

Record State : Type := mkState {
  alerts : Js.value;
  loading : bool;
  filter : string;            (* all, active, resolved *)
  searchTerm : string;
  sortBy : string             (* newest, oldest, severity *)
}.

Definition setAlerts (v : Js.value) : M State unit :=
  modify (fun s => mkState v (loading s) (filter s) (searchTerm s) (sortBy s)).
Definition setLoading (b : bool) : M State unit :=
  modify (fun s => mkState (alerts s) b (filter s) (searchTerm s) (sortBy s)).

(** [Array.isArray(alertsData) ? alertsData : []] for
    [alertsData = response.data || response]: the response object itself
    is truthy and is not an array. *)
Definition normalize (response : AxiosResponse) : Js.value :=
  let alertsData : Js.value + AxiosResponse :=
    if Js.truthy (data response) then inl (data response) else inr response in
  match alertsData with
  | inl v => if Js.isArray v then v else Js.Arr []
  | inr _ => Js.Arr []
  end.

Definition fetchAlerts (getAlerts : Js.settled AxiosResponse) : M State unit :=
  (try_catch
     (response ← await getAlerts;
      setAlerts (normalize response) ;;
      setLoading false)
     (fun error =>
        setAlerts (Js.Arr []) ;;
        setLoading false))%eff.

(** An element of the alert list, with the fields of the data model that
    the page reads. *)
Record Alert : Type := mkAlert {
  id : Z;
  alert_type : string;
  severity : string;
  message : string;
  timestamp : string;
  resolved : bool
}.

(** [Array.prototype.sort(comparefn)]: a stable sort; a comparator result
    that is NaN counts as [+0].  [x] goes after [y] exactly when
    [comparefn(x, y) > 0].  (For a comparator that is not consistent the
    order is left to the implementation; the result is a rearrangement of
    the array in every case.) *)
Section Sort.
Context {A : Type} (comparefn : A -> A -> float).

Fixpoint insert (x : A) (l : list A) : list A :=
  match l with
  | [] => [x]
  | y :: l' =>
      if PrimFloat.ltb 0%float (comparefn x y) then y :: insert x l'
      else x :: y :: l'
  end.

Fixpoint sort (l : list A) : list A :=
  match l with
  | [] => []
  | x :: l' => insert x (sort l')
  end.

End Sort.

Definition severityOrder : gmap string float :=
  {[ "critical" := 4%float; "high" := 3%float;
     "medium" := 2%float; "low" := 1%float ]}.

(** ToNumber of [severityOrder[k]]. *)
Definition severity_rank (k : string) : float :=
  Js.to_number (Js.to_primitive (Js.literal_get severityOrder k)).

Section View.

(** The time value of [new Date(timestamp)]; NaN for an invalid date. *)
Variable Date_time : string -> float.

(** [String.prototype.toLowerCase]. *)
Variable toLowerCase : string -> string.

Definition keep (filter searchTerm : string) (alert : Alert) : bool :=
  if String.eqb filter "active" && resolved alert then false
  else if String.eqb filter "resolved" && negb (resolved alert) then false
  else if negb (String.eqb searchTerm "") then
    let searchLower := toLowerCase searchTerm in
    Js.includes (toLowerCase (message alert)) searchLower ||
    Js.includes (toLowerCase (alert_type alert)) searchLower ||
    Js.includes (toLowerCase (severity alert)) searchLower
  else true.

Definition compare (sortBy : string) (a b : Alert) : float :=
  if String.eqb sortBy "newest" then
    (Date_time (timestamp b) - Date_time (timestamp a))%float
  else if String.eqb sortBy "oldest" then
    (Date_time (timestamp a) - Date_time (timestamp b))%float
  else if String.eqb sortBy "severity" then
    (severity_rank (severity b) - severity_rank (severity a))%float
  else 0%float.

(** [alerts] is the array held in state, its elements read as [Alert]
    records. *)
Definition filteredAndSortedAlerts
    (alerts : list Alert) (filter searchTerm sortBy : string) : list Alert :=
  sort (compare sortBy) (List.filter (keep filter searchTerm) alerts).

End View.

Definition activeAlerts (alerts : list Alert) : list Alert :=
  List.filter (fun alert => negb (resolved alert)) alerts.

Definition resolvedAlerts (alerts : list Alert) : list Alert :=
  List.filter (fun alert => resolved alert) alerts.

(** [handleResolveAlert(alertId)], given how the resolve request and the
    refetch settle.  The refetch is started, not awaited; it is run here
    to its end. *)
Definition handleResolveAlert
    (resolveAlert getAlerts : Js.settled AxiosResponse) : M State unit :=
  (try_catch
     (await resolveAlert ;;
      fetchAlerts getAlerts)
     (fun error => ret tt))%eff.

Definition setFilter (v : string) : M State unit :=
  modify (fun s => mkState (alerts s) (loading s) v (searchTerm s) (sortBy s)).
Definition setSearchTerm (v : string) : M State unit :=
  modify (fun s => mkState (alerts s) (loading s) (filter s) v (sortBy s)).
Definition setSortBy (v : string) : M State unit :=
  modify (fun s => mkState (alerts s) (loading s) (filter s) (searchTerm s) v).

(** The state of a freshly mounted page. *)
Definition initial : State :=
  {| alerts := Js.Arr []; loading := true; filter := "all";
     searchTerm := ""; sortBy := "newest" |}.

(** What can happen to a mounted page: the fetch on mount and on every
    tick of the 30 s timer, a click on a resolve button, and the three
    inputs. *)
Inductive Event : Type :=
| Refresh (getAlerts : Js.settled AxiosResponse)
| ResolveClicked (resolveAlert getAlerts : Js.settled AxiosResponse)
| SearchTyped (text : string)
| FilterChosen (value : string)
| SortChosen (value : string).

Definition handle (e : Event) : M State unit :=
  match e with
  | Refresh getAlerts => fetchAlerts getAlerts
  | ResolveClicked resolveAlert getAlerts =>
      handleResolveAlert resolveAlert getAlerts
  | SearchTyped text => setSearchTerm text
  | FilterChosen value => setFilter value
  | SortChosen value => setSortBy value
  end.

Definition run (events : list Event) (s : State) : State :=
  fold_left (fun s e => exec (handle e) s) events s.

End AlertsPage.

(** ** The [AlertsPageSimple] component *)

Module AlertsPageSimple.
Import Eff.

Record State : Type := mkState {
  alerts : Js.value;
  loading : bool;
  error : option string
}.

Definition setAlerts (v : Js.value) : M State unit :=
  modify (fun s => mkState v (loading s) (error s)).
Definition setLoading (b : bool) : M State unit :=
  modify (fun s => mkState (alerts s) b (error s)).
Definition setError (e : option string) : M State unit :=
  modify (fun s => mkState (alerts s) (loading s) e).

(** The [fetch] response: [ok], the text ["HTTP <status>: <statusText>"]
    and the outcome of [response.json()]. *)
Record Response : Type := mkResponse {
  ok : bool;
  status_line : string;
  json : Js.settled Js.value
}.

Definition fetchAlerts (reply : Js.settled Response) : M State unit :=
  (try_catch
     (response ← await reply;
      (if negb (ok response)
       then throw (Js.mkError (status_line response))
       else ret tt) ;;
      data ← await (json response);
      (* console.log reads [data.length] *)
      lift (Js.read_check data "length") ;;
      setAlerts (if Js.isArray data then data else Js.Arr []) ;;
      setError None ;;
      setLoading false)
     (fun err =>
        setError (Some (Js.message err)) ;;
        setAlerts (Js.Arr []) ;;
        setLoading false))%eff.

(** [handleResolveAlert(alertId)], given how the resolve request and the
    refetch settle. *)
Definition handleResolveAlert
    (resolve reply : Js.settled Response) : M State unit :=
  (try_catch
     (response ← await resolve;
      if ok response then fetchAlerts reply else ret tt)
     (fun err => ret tt))%eff.

Definition initial : State :=
  {| alerts := Js.Arr []; loading := true; error := None |}.

(** The fetch on mount, on a tick of the timer and from the retry button,
    and a click on a resolve button. *)
Inductive Event : Type :=
| Refresh (reply : Js.settled Response)
| ResolveClicked (resolve reply : Js.settled Response).

Definition handle (e : Event) : M State unit :=
  match e with
  | Refresh reply => fetchAlerts reply
  | ResolveClicked resolve reply => handleResolveAlert resolve reply
  end.

Definition run (events : list Event) (s : State) : State :=
  fold_left (fun s e => exec (handle e) s) events s.

End AlertsPageSimple.

(** ** The [AlertsPageDebug] component *)

Module AlertsPageDebug.
Import Eff Api.

Record State : Type := mkState {
  alerts : Js.value;
  loading : bool;
  error : option string
}.

Definition setAlerts (v : Js.value) : M State unit :=
  modify (fun s => mkState v (loading s) (error s)).
Definition setLoading (b : bool) : M State unit :=
  modify (fun s => mkState (alerts s) b (error s)).
Definition setError (e : option string) : M State unit :=
  modify (fun s => mkState (alerts s) (loading s) e).

(** [Array.isArray(alertsData) ? alertsData : []] for
    [alertsData = response.data || response]. *)
Definition normalize (response : AxiosResponse) : Js.value :=
  let alertsData : Js.value + AxiosResponse :=
    if Js.truthy (data response) then inl (data response) else inr response in
  match alertsData with
  | inl v => if Js.isArray v then v else Js.Arr []
  | inr _ => Js.Arr []
  end.

Definition fetchAlerts (getAlerts : Js.settled AxiosResponse) : M State unit :=
  (try_catch
     (setLoading true ;;
      setError None ;;
      response ← await getAlerts;
      setAlerts (normalize response) ;;
      setLoading false)
     (fun error =>
        setError (Some (Js.message error)) ;;
        setAlerts (Js.Arr []) ;;
        setLoading false))%eff.

End AlertsPageDebug.

(** ** The [Navigation] component *)

Module Navigation.
Import Eff.

Record NavItem : Type := mkNavItem {
  id : string;
  name : string;
  description : string;
  roles : list string
}.

Definition navigationItems : list NavItem :=
  [ {| id := "dashboard"; name := "Dashboard";
       description := "System overview and real-time monitoring";
       roles := ["operator"; "admin"] |};
    {| id := "analytics"; name := "Analytics";
       description := "AI insights and predictions";
       roles := ["operator"; "admin"] |};
    {| id := "alerts"; name := "Alerts";
       description := "System alerts and notifications";
       roles := ["operator"; "admin"] |};
    {| id := "settings"; name := "Settings";
       description := "System configuration and preferences";
       roles := ["admin"] |} ].

(** [navigationItems.filter(item => item.roles.some(role => hasRole(role)))]. *)
Definition filteredNavItems (s : AuthStore.AuthState) : list NavItem :=
  List.filter
    (fun item => existsb (fun role => AuthStore.hasRole role s) (roles item))
    navigationItems.

(** The toast is not modelled. *)
Definition handleLogout : M AuthStore.AuthState unit := AuthStore.logout.

End Navigation.

(** ** The [LoginForm] component *)

Module LoginForm.
Import Eff.

(** The roles offered by the role buttons. *)
Definition demo_roles : list string := ["operator"; "admin"].

(** [handleSubmit], for the role selected in the form.  The toast is not
    modelled. *)
Definition handleSubmit (selectedRole : string) : M AuthStore.AuthState unit :=
  (AuthStore.clearError ;;
   AuthStore.mockLogin (Some selectedRole))%eff.

End LoginForm.

(** ** [frontend/src/App.js] *)

Module App.
Import Eff.

(** What [renderCurrentView] returns.  Only the dashboard of the
    [dashboard] case is given [onNavigateToAlerts]. *)
Inductive Page : Type :=
| ShowDashboard (navigatesToAlerts : bool)
| ShowAnalytics
| ShowAlerts
| ShowSettings.

(** What [App] returns. *)
Inductive Screen : Type :=
| Initializing             (* the loading spinner *)
| Login                    (* the login form *)
| Shell (page : Page).     (* the navigation and the current view *)

(** The store's data and the [currentView] state of [App]. *)
Record State : Type := mkState {
  auth : AuthStore.AuthState;
  currentView : string
}.

Definition initial : State :=
  {| auth := AuthStore.initial; currentView := "dashboard" |}.

Definition renderCurrentView (currentView : string) : Page :=
  if String.eqb currentView "dashboard" then ShowDashboard true
  else if String.eqb currentView "analytics" then ShowAnalytics
  else if String.eqb currentView "alerts" then ShowAlerts
  else if String.eqb currentView "settings" then ShowSettings
  else ShowDashboard false.

Definition render (st : State) : Screen :=
  if AuthStore.isLoading (auth st) then Initializing
  else if negb (AuthStore.isAuthenticated (auth st)) then Login
  else Shell (renderCurrentView (currentView st)).

(** The handlers the rendered tree wires up: a click on an item of the
    navigation ([setCurrentView(item.id)]), the dashboard's alert summary
    ([setCurrentView('alerts')]), the logout button, and the submission of
    the login form with a role selected. *)
Inductive Event : Type :=
| NavClicked (item : Navigation.NavItem)
| AlertSummaryClicked
| LogoutClicked
| LoginSubmitted (selectedRole : string).

Definition handle (e : Event) (st : State) : State :=
  match e with
  | NavClicked item => mkState (auth st) (Navigation.id item)
  | AlertSummaryClicked => mkState (auth st) "alerts"
  | LogoutClicked => mkState (exec Navigation.handleLogout (auth st)) (currentView st)
  | LoginSubmitted selectedRole =>
      mkState (exec (LoginForm.handleSubmit selectedRole) (auth st)) (currentView st)
  end.

(** The events the screen can offer: an element has to be rendered to be
    clicked.  (The alert summary is rendered by the dashboard only while
    it holds alerts.) *)
Definition offered (e : Event) (st : State) : Prop :=
  match e, render st with
  | NavClicked item, Shell _ => In item (Navigation.filteredNavItems (auth st))
  | AlertSummaryClicked, Shell (ShowDashboard true) => True
  | LogoutClicked, Shell _ => True
  | LoginSubmitted selectedRole, Login => In selectedRole LoginForm.demo_roles
  | _, _ => False
  end.

(** The states the application can be brought to from a fresh store
    through its screens. *)
Inductive reachable : State -> Prop :=
| reachable_initial : reachable initial
| reachable_step (st : State) (e : Event) :
    reachable st -> offered e st -> reachable (handle e st).

End App.

(** ** The [MetricCard] component *)

Module MetricCard.

Inductive TrendIcon : Type := TrendingUp | TrendingDown | Minus.

Definition getTrendIcon (trend : float) : TrendIcon :=
  if Dashboard.gt trend 0 then TrendingUp
  else if Dashboard.lt trend 0 then TrendingDown
  else Minus.

(** [trend !== 0 && ...]: whether the percentage is printed. *)
Definition printsPercentage (trend : float) : bool :=
  negb (PrimFloat.eqb trend 0%float).

End MetricCard.

(** ** The [AIInsights] component

    Console output is not modelled. *)

Module AIInsights.
Import Eff Api.

Record State : Type := mkState {
  faultDetection : Js.value;
  gridSwitching : Js.value;
  solarPredictions : Js.value;
  loadManagement : Js.value;
  loadPredictions : Js.value;
  loading : bool
}.

Definition initial : State :=
  {| faultDetection := Js.Null; gridSwitching := Js.Null;
     solarPredictions := Js.Null; loadManagement := Js.Null;
     loadPredictions := Js.Null; loading := true |}.

Definition setFaultDetection (v : Js.value) : M State unit :=
  modify (fun s => mkState v (gridSwitching s) (solarPredictions s)
                     (loadManagement s) (loadPredictions s) (loading s)).
Definition setGridSwitching (v : Js.value) : M State unit :=
  modify (fun s => mkState (faultDetection s) v (solarPredictions s)
                     (loadManagement s) (loadPredictions s) (loading s)).
Definition setSolarPredictions (v : Js.value) : M State unit :=
  modify (fun s => mkState (faultDetection s) (gridSwitching s) v
                     (loadManagement s) (loadPredictions s) (loading s)).
Definition setLoadManagement (v : Js.value) : M State unit :=
  modify (fun s => mkState (faultDetection s) (gridSwitching s)
                     (solarPredictions s) v (loadPredictions s) (loading s)).
Definition setLoadPredictions (v : Js.value) : M State unit :=
  modify (fun s => mkState (faultDetection s) (gridSwitching s)
                     (solarPredictions s) (loadManagement s) v (loading s)).
Definition setLoading (b : bool) : M State unit :=
  modify (fun s => mkState (faultDetection s) (gridSwitching s)
                     (solarPredictions s) (loadManagement s)
                     (loadPredictions s) b).

(** A [fetch] response: its [ok] flag, which [fetchAIData] never reads,
    and the outcome of [r.json()]. *)
Record Response : Type := mkResponse {
  ok : bool;
  json : Js.settled Js.value
}.

(** [fetch(url).then(r => r.json())]. *)
Definition then_json (p : Js.settled Response) : Js.settled Js.value :=
  match p with
  | Js.Fulfilled r => json r
  | Js.Rejected e => Js.Rejected e
  end.

(** How the five requests of one cycle settle. *)
Record Cycle : Type := mkCycle {
  fault_detection : Js.settled Response;
  grid_switching : Js.settled Response;
  solar_predictions : Js.settled Response;     (* hours=6 *)
  load_management : Js.settled Response;
  load_predictions : Js.settled Response       (* hours=12 *)
}.

(** The array handed to [Promise.all]. *)
Definition promises (c : Cycle) : list (Js.settled Js.value) :=
  [ then_json (fault_detection c); then_json (grid_switching c);
    then_json (solar_predictions c); then_json (load_management c);
    then_json (load_predictions c) ].

Definition fetchAIData (c : Cycle) : M State unit :=
  (try_catch
     (results ← await (Promise_all (promises c));
      (* [faults, grid, solar, management, loads] = results *)
      setFaultDetection (nth 0 results Js.Undefined) ;;
      setGridSwitching (nth 1 results Js.Undefined) ;;
      setSolarPredictions (nth 2 results Js.Undefined) ;;
      setLoadManagement (nth 3 results Js.Undefined) ;;
      setLoadPredictions (nth 4 results Js.Undefined) ;;
      setLoading false)
     (fun error => setLoading false))%eff.

End AIInsights.

(** ** Notions of the specification *)

Module Spec.

(** The role hierarchy in the specification's words: [{operator:1, admin:2}]. *)
Definition rank (r : string) : option Z :=
  if String.eqb r "operator" then Some 1%Z
  else if String.eqb r "admin" then Some 2%Z
  else None.

(** The rank of a user's role; none when the role is missing. *)
Definition user_rank (u : AuthStore.User) : option Z :=
  match AuthStore.role u with
  | Some r => rank r
  | None => None
  end.

(** A store without a session. *)
Definition logged_out (s : AuthStore.AuthState) : Prop :=
  AuthStore.user s = None /\ AuthStore.token s = None /\
  AuthStore.isAuthenticated s = false.

(** The call [login(username, password)] made in state [s] reports
    success. *)
Definition succeeds (backend : string -> string -> Js.settled AuthStore.Response)
    (username password : string) (s : AuthStore.AuthState) : Prop :=
  exists r,
    fst (AuthStore.login backend username password s) = Eff.Normal r /\
    AuthStore.success r = true.

(** The frame [event_data] parses to a message whose [type] is the
    string [tag]. *)
Definition tagged (JSON_parse : string -> Js.Error + Js.value)
    (event_data tag : string) : Prop :=
  exists message,
    JSON_parse event_data = inr message /\
    Js.get message "type" = inr (Js.Str tag).

(** [a <= b] on numbers. *)
Definition le (a b : float) : bool := PrimFloat.leb a b.

(** The expression [((current - previous) / previous) * 100]. *)
Definition trend (current previous : Dashboard.reading) : float :=
  (((Dashboard.to_number current - Dashboard.to_number previous)
    / Dashboard.to_number previous) * 100)%float.

(** [s] contains [t], ignoring case: [t] occurs in [s] once both are
    mapped to lower case. *)
Definition contains_ci (toLowerCase : string -> string) (s t : string) : Prop :=
  exists pre post, toLowerCase s = pre ++ toLowerCase t ++ post.

(** The rank of the session's user; none without a user or a role of the
    hierarchy. *)
Definition session_rank (s : AuthStore.AuthState) : option Z :=
  match AuthStore.user s with
  | Some u => user_rank u
  | None => None
  end.

(** The status filter of the alert page lets [alert] through. *)
Definition status_matches (filter : string) (alert : AlertsPage.Alert) : Prop :=
  (filter = "active" -> AlertsPage.resolved alert = false) /\
  (filter = "resolved" -> AlertsPage.resolved alert = true).

(** A severity of the table [severityOrder]. *)
Definition known_severity (k : string) : Prop :=
  k = "critical" \/ k = "high" \/ k = "medium" \/ k = "low".

(** The next alert does not outrank this one. *)
Definition not_outranked (a b : AlertsPage.Alert) : Prop :=
  PrimFloat.ltb (AlertsPage.severity_rank (AlertsPage.severity a))
                (AlertsPage.severity_rank (AlertsPage.severity b)) = false.

End Spec.

(** ** Sample data *)

Module Sample.
Import AuthStore.

(** The session after [mockLogin(role)] on a fresh store. *)
Definition session (role : string) : AuthState :=
  Eff.exec (mockLogin (Some role)) initial.

(** A fresh store in which a [login] is in flight: the state its first
    [set] leaves while the request is awaited. *)
Definition logging_in : AuthState :=
  merge {| set_user := None; set_token := None; set_isAuthenticated := None;
           set_isLoading := Some true; set_error := Some None |}
        initial.

(** A backend that knows the demo accounts. *)
Definition demo_backend (username password : string) : Js.settled Response :=
  if String.eqb username "admin" && String.eqb password "admin123" then
    Js.Fulfilled
      {| ok := true;
         json := Js.Fulfilled (Some
           {| data_user := Some (mkUser 2 "admin" None (Some "admin") None);
              access_token := Some "token-admin" |}) |}
  else
    Js.Fulfilled
      {| ok := false; json := Js.Rejected (Js.mkError "Unexpected token") |}.

(** The same backend later on: it signs another token for the admin. *)
Definition demo_backend_later (username password : string)
    : Js.settled Response :=
  if String.eqb username "admin" && String.eqb password "admin123" then
    Js.Fulfilled
      {| ok := true;
         json := Js.Fulfilled (Some
           {| data_user := Some (mkUser 2 "admin" None (Some "admin") None);
              access_token := Some "token-admin-later" |}) |}
  else demo_backend username password.

(** A reply with the given body. *)
Definition reply (body : Js.value) : Js.settled Api.AxiosResponse :=
  Js.Fulfilled (Api.mkAxiosResponse body).

(** A pull cycle of the dashboard in which every request is answered, the
    alerts request with [body]. *)
Definition cycle_with_alerts (body : Js.value) : Dashboard.Cycle :=
  {| Dashboard.getSensorData := reply (Js.Arr []);
     Dashboard.getLatestSensorData := reply (Js.Obj [("soc", Js.Num 50%float)]);
     Dashboard.getAlerts := reply body;
     Dashboard.getSystemStatus := reply (Js.Obj [("system_health", Js.Str "healthy")]);
     Dashboard.getAnalytics := reply (Js.Obj []);
     Dashboard.now := 1700000000000 |}.

(** The same cycle with the alerts request refused. *)
Definition cycle_alerts_down : Dashboard.Cycle :=
  {| Dashboard.getSensorData := reply (Js.Arr []);
     Dashboard.getLatestSensorData := reply (Js.Obj [("soc", Js.Num 50%float)]);
     Dashboard.getAlerts := Js.Rejected (Js.mkError "Network Error");
     Dashboard.getSystemStatus := reply (Js.Obj [("system_health", Js.Str "healthy")]);
     Dashboard.getAnalytics := reply (Js.Obj []);
     Dashboard.now := 1700000000000 |}.

(** An error body: an object, not a list. *)
Definition error_body : Js.value :=
  Js.Obj [("detail", Js.Str "Internal Server Error")].

(** A parser that knows one frame, a message tagged [alert]. *)
Definition parse_frame (text : string) : Js.Error + Js.value :=
  if String.eqb text "alert-frame"
  then inr (Js.Obj [("type", Js.Str "alert"); ("id", Js.Num 7%float)])
  else inl (Js.mkError "Unexpected token").

(** Three alerts, the second resolved. *)
Definition three_alerts : list AlertsPage.Alert :=
  [ AlertsPage.mkAlert 1 "temperature" "critical" "Temperature above limit"
      "2024-01-01T10:00:00" false;
    AlertsPage.mkAlert 2 "voltage" "low" "Voltage dip" "2024-01-01T11:00:00" true;
    AlertsPage.mkAlert 3 "soc" "high" "Battery TEMPERATURE drift"
      "2024-01-01T09:00:00" false ].

(** A clock for the timestamps of [three_alerts]: minutes of the day. *)
Definition minutes (timestamp : string) : float :=
  if String.eqb timestamp "2024-01-01T09:00:00" then 540%float
  else if String.eqb timestamp "2024-01-01T10:00:00" then 600%float
  else if String.eqb timestamp "2024-01-01T11:00:00" then 660%float
  else nan.

Definition world0 : ComprehensiveDashboard.World :=
  {| ComprehensiveDashboard.view :=
       ComprehensiveDashboard.mkState "overview" Js.Null (Js.Obj [])
         (Js.Arr []) Js.Null Js.Null true (Some "stale") None (Some 1%nat);
     ComprehensiveDashboard.requests := [];
     ComprehensiveDashboard.console := [] |}.

(** A backend that would answer every request of the comprehensive
    dashboard. *)
Definition answered : ComprehensiveDashboard.Cycle :=
  {| ComprehensiveDashboard.status :=
       reply (Js.Obj [("system_health", Js.Str "healthy")]);
     ComprehensiveDashboard.sensors := reply (Js.Obj [("readings", Js.Obj [])]);
     ComprehensiveDashboard.alerts_list := reply (Js.Obj [("alerts", Js.Arr [])]);
     ComprehensiveDashboard.efficiency := reply (Js.Obj []);
     ComprehensiveDashboard.forecast := reply (Js.Obj []);
     ComprehensiveDashboard.now := 1700000000000 |}.

(** The application with an admin logged in, on the settings. *)
Definition admin_on_settings : App.State :=
  App.mkState (session "admin") "settings".

(** A short sensor history and the latest reading. *)
Definition reading_at (t : string) (w : float) : Dashboard.SensorReading :=
  Dashboard.mkSensorReading t w 5%float 50%float 40%float 230%float.

(** The application with an operator logged in, on the dashboard. *)
Definition operator_app : App.State :=
  App.mkState (session "operator") "dashboard".

(** The third item of the navigation. *)
Definition alerts_item : Navigation.NavItem :=
  {| Navigation.id := "alerts"; Navigation.name := "Alerts";
     Navigation.description := "System alerts and notifications";
     Navigation.roles := ["operator"; "admin"] |}.

(** A cycle of the AI insights in which the backend answers every
    request with an error status and a JSON error body. *)
Definition failing_reply : Js.settled AIInsights.Response :=
  Js.Fulfilled (AIInsights.mkResponse false (Js.Fulfilled error_body)).

End Sample.

(** * Properties *)

(** ** The definitions at work *)

Example hasRole_samples :
  AuthStore.hasRole "admin" (Sample.session "admin") = true /\
  AuthStore.hasRole "admin" (Sample.session "operator") = false /\
  AuthStore.hasRole "operator" (Sample.session "admin") = true /\
  AuthStore.hasRole "operator" (Sample.session "guest") = false /\
  AuthStore.hasRole "guest" (Sample.session "admin") = false /\
  AuthStore.hasRole "toString" (Sample.session "admin") = false /\
  AuthStore.hasRole "admin" (Sample.session "toString") = false /\
  AuthStore.hasRole "admin" AuthStore.initial = false.
Proof. repeat split. Qed.

Example login_samples :
  Eff.exec (AuthStore.login Sample.demo_backend "admin" "wrong") AuthStore.initial
    = AuthStore.mkAuthState None None false false (Some "Invalid credentials")
  /\
  AuthStore.token
    (Eff.exec (AuthStore.login Sample.demo_backend "admin" "admin123")
              AuthStore.initial)
    = Some "token-admin".
Proof. split; reflexivity. Qed.

Example calculateTrend_samples :
  Dashboard.calculateTrend (Dashboard.RNum 110%float) (Dashboard.RNum 100%float)
    = 10%float /\
  Dashboard.calculateTrend (Dashboard.RNum 90%float) (Dashboard.RNum 120%float)
    = (-25)%float /\
  Dashboard.calculateTrend (Dashboard.RNum 5%float) Dashboard.RUndefined
    = 0%float /\
  Dashboard.calculateTrend (Dashboard.RNum 5%float) (Dashboard.RNum (-0)%float)
    = 0%float.
Proof. repeat split. Qed.

Example includes_samples :
  Js.includes (Js.toLowerCase "Battery TEMPERATURE drift") (Js.toLowerCase "Temp")
    = true /\
  Js.includes "voltage dip" "temp" = false /\
  Js.includes "abc" "" = true.
Proof. repeat split. Qed.

Example filteredAndSortedAlerts_samples :
  map AlertsPage.id
    (AlertsPage.filteredAndSortedAlerts Sample.minutes Js.toLowerCase
       Sample.three_alerts
       "all" "" "newest") = [2; 1; 3]%Z /\
  map AlertsPage.id
    (AlertsPage.filteredAndSortedAlerts Sample.minutes Js.toLowerCase
       Sample.three_alerts
       "all" "" "oldest") = [3; 1; 2]%Z /\
  map AlertsPage.id
    (AlertsPage.filteredAndSortedAlerts Sample.minutes Js.toLowerCase
       Sample.three_alerts
       "all" "" "severity") = [1; 3; 2]%Z /\
  map AlertsPage.id
    (AlertsPage.filteredAndSortedAlerts Sample.minutes Js.toLowerCase
       Sample.three_alerts
       "active" "TEMP" "oldest") = [3; 1]%Z /\
  map AlertsPage.id
    (AlertsPage.filteredAndSortedAlerts Sample.minutes Js.toLowerCase
       Sample.three_alerts
       "resolved" "" "newest") = [2]%Z.
Proof. repeat split. Qed.

(** ** The session store *)

Section AuthStoreFacts.
Import Eff AuthStore.

Lemma roleHierarchy_lookup (r : string) :
  roleHierarchy !! r =
    if String.eqb r "operator" then Some 1%float
    else if String.eqb r "admin" then Some 2%float
    else None.
Proof.
  unfold roleHierarchy.
  destruct (String.eqb_spec r "operator") as [-> | Hop]; [reflexivity |].
  rewrite lookup_insert_ne by congruence.
  destruct (String.eqb_spec r "admin") as [-> | Had]; [reflexivity |].
  apply lookup_singleton_ne; congruence.
Qed.

(** Whatever [Object.prototype] holds under a name, it is not a number. *)
Lemma Object_prototype_get_not_num (k : string) (x : float) :
  Js.Object_prototype_get k <> Js.SNum x.
Proof.
  unfold Js.Object_prototype_get.
  repeat match goal with |- context [if ?b then _ else _] => destruct b end;
    discriminate.
Qed.

(** A value that is not a number is never [>=] a number. *)
Lemma ge_num_right (a : Js.slot) (y : float) :
  (forall x, a <> Js.SNum x) -> Js.ge a (Js.SNum y) = false.
Proof.
  intros Hnot. destruct a as [| x | name |]; try reflexivity.
  exfalso. exact (Hnot x eq_refl).
Qed.

(** Nor is a number [>=] a value that is not a number. *)
Lemma ge_num_left (x : float) (b : Js.slot) :
  (forall y, b <> Js.SNum y) -> Js.ge (Js.SNum x) b = false.
Proof.
  intros Hnot. destruct b as [| y | name |];
    [| exfalso; exact (Hnot y eq_refl) | |].
  all: unfold Js.ge, Js.is_less_than; simpl;
    change (Js.is_nan nan) with true; rewrite orb_true_r; reflexivity.
Qed.

(** Nor is [undefined] [>=] anything. *)
Lemma ge_undefined_left (b : Js.slot) : Js.ge Js.SUndefined b = false.
Proof. destruct b; reflexivity. Qed.

Lemma literal_get_rank (r : string) :
  match Spec.rank r with
  | Some 1%Z => Js.literal_get roleHierarchy r = Js.SNum 1%float
  | Some _ => Js.literal_get roleHierarchy r = Js.SNum 2%float
  | None => forall x, Js.literal_get roleHierarchy r <> Js.SNum x
  end.
Proof.
  unfold Js.literal_get, Spec.rank. rewrite roleHierarchy_lookup.
  destruct (String.eqb r "operator"); [reflexivity |].
  destruct (String.eqb r "admin"); [reflexivity |].
  apply Object_prototype_get_not_num.
Qed.

Lemma rank_cases (r : string) (q : Z) :
  Spec.rank r = Some q ->
  (r = "operator" /\ q = 1%Z) \/ (r = "admin" /\ q = 2%Z).
Proof.
  unfold Spec.rank.
  destruct (String.eqb_spec r "operator") as [-> | _];
    [intros [= <-]; left; done |].
  destruct (String.eqb_spec r "admin") as [-> | _];
    [intros [= <-]; right; done | discriminate].
Qed.

(** The comparison [roleHierarchy[name] >= roleHierarchy[required]] for a
    required role of the hierarchy and any name on the left: the order of
    the two ranks. *)
Lemma ge_by_rank (name required : string) (q : Z) :
  Spec.rank required = Some q ->
  Js.ge (Js.literal_get roleHierarchy name)
        (Js.literal_get roleHierarchy required) = true <->
  exists p, Spec.rank name = Some p /\ (q <= p)%Z.
Proof.
  intros Hq.
  pose proof (literal_get_rank name) as Hname.
  destruct (rank_cases _ _ Hq) as [[-> ->] | [-> ->]];
    change (Js.literal_get roleHierarchy "operator") with (Js.SNum 1%float);
    change (Js.literal_get roleHierarchy "admin") with (Js.SNum 2%float).
  all: destruct (Spec.rank name) as [p |] eqn:Hp.
  all: try (rewrite ge_num_right by exact Hname;
            split; [discriminate | intros (p' & [=] & _)]).
  all: destruct (rank_cases _ _ Hp) as [[-> ->] | [-> ->]]; rewrite Hname.
  all: match goal with
       | |- ?l = true <-> _ =>
           let v := eval vm_compute in l in change l with v
       end.
  all: split;
    [ intros H;
      first [ discriminate H | eexists; split; [reflexivity | lia] ]
    | intros (p' & [= <-] & Hle); first [ reflexivity | lia ] ].
Qed.

Lemma hasRole_no_user (required : string) (s : AuthState) :
  user s = None -> hasRole required s = false.
Proof. unfold hasRole. intros ->. reflexivity. Qed.

Lemma hasRole_no_role (required : string) (s : AuthState) (u : User) :
  user s = Some u -> role u = None -> hasRole required s = false.
Proof.
  unfold hasRole. intros -> ->. apply ge_undefined_left.
Qed.

Lemma hasRole_known (required : string) (q : Z) (s : AuthState) :
  Spec.rank required = Some q ->
  hasRole required s = true <->
  exists u p, user s = Some u /\ Spec.user_rank u = Some p /\ (q <= p)%Z.
Proof.
  intros Hq. destruct (user s) as [u |] eqn:Hu.
  - destruct (role u) as [name |] eqn:Hr.
    + unfold hasRole. rewrite Hu, Hr. simpl. rewrite (ge_by_rank _ _ _ Hq).
      unfold Spec.user_rank. split.
      * intros (p & Hp & Hle). exists u, p. rewrite Hr. done.
      * intros (u' & p & [= <-] & Hp & Hle). rewrite Hr in Hp. eauto.
    + rewrite (hasRole_no_role _ _ _ Hu Hr). split; [discriminate |].
      intros (u' & p & [= <-] & Hp & _).
      unfold Spec.user_rank in Hp. rewrite Hr in Hp. discriminate.
  - rewrite (hasRole_no_user _ _ Hu). split; [discriminate |].
    intros (u' & p & [=] & _).
Qed.

(** [hasRole(required)] for a role [required] of the hierarchy
    [{operator:1, admin:2}] is true exactly when a user is present and the
    rank of the user's role is at least the rank of [required]; so
    [hasRole('admin')] holds exactly for users whose role is [admin], and
    [hasRole('operator')] exactly for users whose role is [operator] or
    [admin].  Without a user, or for a user without a role, [hasRole] is
    false whatever is required. *)
Theorem hasRole_rank_order (s : AuthState) :
  (forall required q,
     Spec.rank required = Some q ->
     hasRole required s = true <->
     exists u p, user s = Some u /\ Spec.user_rank u = Some p /\ (q <= p)%Z)
  /\ (hasRole "admin" s = true <->
      exists u, user s = Some u /\ role u = Some "admin")
  /\ (hasRole "operator" s = true <->
      exists u, user s = Some u /\
                (role u = Some "operator" \/ role u = Some "admin"))
  /\ (forall required, user s = None -> hasRole required s = false)
  /\ (forall required u,
        user s = Some u -> role u = None -> hasRole required s = false).
Proof.
  split; [intros required q; apply hasRole_known |].
  split; [| split; [| split;
    [intros required; apply hasRole_no_user
    | intros required u; apply hasRole_no_role]]].
  - rewrite (hasRole_known "admin" 2 s eq_refl). split.
    + intros (u & p & Hu & Hp & Hle). exists u. split; [done |].
      unfold Spec.user_rank in Hp. destruct (role u) as [name |]; [| done].
      destruct (rank_cases _ _ Hp) as [[-> ->] | [-> ->]]; [lia | done].
    + intros (u & Hu & Hr). exists u, 2%Z.
      unfold Spec.user_rank. rewrite Hr. done.
  - rewrite (hasRole_known "operator" 1 s eq_refl). split.
    + intros (u & p & Hu & Hp & Hle). exists u. split; [done |].
      unfold Spec.user_rank in Hp. destruct (role u) as [name |]; [| done].
      destruct (rank_cases _ _ Hp) as [[-> ->] | [-> ->]]; auto.
    + intros (u & Hu & [Hr | Hr]); [exists u, 1%Z | exists u, 2%Z];
        unfold Spec.user_rank; rewrite Hr; done.
Qed.

Lemma hasRole_rank_order_witness :
  hasRole "operator" (Sample.session "admin") = true.
Proof.
  apply (proj1 (hasRole_rank_order (Sample.session "admin")) "operator" 1%Z).
  - reflexivity.
  - eexists _, 2%Z. repeat split; first [reflexivity | lia].
Defined.

(** C3, at a required role and a user's role that have no rank:
    [roleHierarchy['constructor']] is the function [Object] on both sides
    of [>=], so [hasRole('constructor')] is true for a user whose role is
    [constructor], although neither side has a rank to compare. *)
Theorem hasRole_without_rank :
  Spec.rank "constructor" = None /\
  Spec.session_rank (Sample.session "constructor") = None /\
  hasRole "constructor" (Sample.session "constructor") = true.
Proof. repeat split. Qed.

(** C9, at a user whose role is the name of a property that every object
    inherits: [roleHierarchy['toString']] is the built-in function on both
    sides of [>=], so [hasRole('toString')] is true although [toString] is
    not a role of the hierarchy. *)
Theorem hasRole_inherited_name :
  Spec.rank "toString" = None /\
  hasRole "toString" (Sample.session "toString") = true.
Proof. split; reflexivity. Qed.

(** The behaviour C9 describes does hold for every user whose role is not
    the name of a property of [Object.prototype] (in particular for the
    roles [operator] and [admin], for any other ordinary word, and for a
    missing role): a required role outside the hierarchy is refused. *)
Theorem hasRole_unknown_required (required : string) (s : AuthState) (u : User) :
  user s = Some u ->
  Js.Object_prototype_get (role_key (role u)) = Js.SUndefined ->
  Spec.rank required = None ->
  hasRole required s = false.
Proof.
  intros Hu Hproto Hreq. unfold hasRole. rewrite Hu.
  pose proof (literal_get_rank required) as Hr. rewrite Hreq in Hr.
  unfold Js.literal_get at 1.
  destruct (roleHierarchy !! role_key (role u)) as [x |].
  - apply ge_num_left. exact Hr.
  - rewrite Hproto. apply ge_undefined_left.
Qed.

Lemma hasRole_unknown_required_witness :
  hasRole "guest" (Sample.session "admin") = false.
Proof.
  apply (hasRole_unknown_required "guest" (Sample.session "admin")
           (mkUser 1 "admin" (Some "admin@microgrid.com") (Some "admin")
                   (Some true)));
    reflexivity.
Defined.

(** [logout] is a synchronous action that cannot fail. *)
Lemma logout_returns (s : AuthState) : fst (logout s) = Normal tt.
Proof. reflexivity. Qed.

(** C6, as the code has it: [logout] writes [user], [token],
    [isAuthenticated] and [error], which hold [null], [null], [false] and
    [null] afterwards; it does not write [isLoading], which keeps the value
    it had. *)
Theorem logout_clears_session (s : AuthState) :
  fst (logout s) = Normal tt /\
  user (exec logout s) = None /\
  token (exec logout s) = None /\
  isAuthenticated (exec logout s) = false /\
  error (exec logout s) = None /\
  isLoading (exec logout s) = isLoading s.
Proof. repeat split. Qed.

(** C6 fails as stated: when [logout] runs while a [login] is in flight,
    [isLoading] stays [true], which is not its initial value. *)
Lemma logout_keeps_isLoading :
  isLoading (exec logout Sample.logging_in) = true /\
  isLoading initial = false /\
  exec logout Sample.logging_in <> initial.
Proof. repeat split. discriminate. Qed.

(** C7, as the code has it.  [mockLogin(role)], [logout()],
    [mockLogin(role)] leaves the store in the state [mockLogin(role)] alone
    leaves it in, from every state.  Each [login] fetches anew: [backend1]
    answers the first call and [backend2] the second.  When the second
    answer is the first one again, and the login succeeds or the store held
    no session before, [login], [logout], [login] leaves the state the
    first [login] alone leaves. *)
Theorem login_round_trip
    (backend1 backend2 : string -> string -> Js.settled Response)
    (username password : string) (role : option string) (s : AuthState) :
  exec (mockLogin role ;; logout ;; mockLogin role)%eff s
    = exec (mockLogin role) s
  /\ (backend2 username password = backend1 username password ->
      Spec.succeeds backend1 username password s \/ Spec.logged_out s ->
      exec (login backend1 username password ;; logout ;;
            login backend2 username password)%eff s
        = exec (login backend1 username password) s).
Proof.
  split; [reflexivity |].
  unfold Spec.succeeds, Spec.logged_out.
  destruct s as [u t a l e].
  unfold exec, login, logout, set, bind, try_catch, modify, await, ret, throw.
  simpl. intros ->.
  destruct (backend1 username password) as [[okb js] | err]; simpl.
  - destruct okb; simpl.
    + destruct js as [[d |] | err]; simpl.
      * reflexivity.
      * intros [(r & [= <-] & Hs) | (-> & -> & ->)];
          [discriminate Hs | reflexivity].
      * intros [(r & [= <-] & Hs) | (-> & -> & ->)];
          [discriminate Hs | reflexivity].
    + intros [(r & [= <-] & Hs) | (-> & -> & ->)];
        [discriminate Hs | reflexivity].
  - intros [(r & [= <-] & Hs) | (-> & -> & ->)];
      [discriminate Hs | reflexivity].
Qed.

Lemma login_round_trip_witness :
  exec (login Sample.demo_backend "admin" "admin123" ;; logout ;;
        login Sample.demo_backend "admin" "admin123")%eff
       (Sample.session "operator")
    = exec (login Sample.demo_backend "admin" "admin123")
           (Sample.session "operator").
Proof.
  apply (proj2 (login_round_trip Sample.demo_backend Sample.demo_backend
                  "admin" "admin123" None (Sample.session "operator")));
    [reflexivity |].
  left. eexists. split; reflexivity.
Defined.

(** C7 fails as stated, in two ways.  An operator is logged in and
    [login] is called with a password the backend refuses, both times with
    the same answer: the first [login] alone leaves the operator's session
    in place; [login], [logout], [login] leaves no session.  And on a
    fresh store, when the backend signs a new token at the second [login]
    with the same credentials, the round trip ends with the new token, not
    the first one. *)
Lemma refused_login_round_trip :
  let first := exec (login Sample.demo_backend "admin" "wrong")
                    (Sample.session "operator") in
  let again := exec (login Sample.demo_backend "admin" "wrong" ;; logout ;;
                     login Sample.demo_backend "admin" "wrong")%eff
                    (Sample.session "operator") in
  let first_token :=
    token (exec (login Sample.demo_backend "admin" "admin123") initial) in
  let again_token :=
    token (exec (login Sample.demo_backend "admin" "admin123" ;; logout ;;
                 login Sample.demo_backend_later "admin" "admin123")%eff
                initial) in
  (isAuthenticated first = true /\
   token first = Some "mock-jwt-token" /\
   isAuthenticated again = false /\
   token again = None) /\
  (first_token = Some "token-admin" /\
   again_token = Some "token-admin-later").
Proof. repeat split. Qed.

End AuthStoreFacts.

(** ** The dashboard's pull cycle *)

Section DashboardFacts.
Import Eff Api Dashboard.

Lemma Promise_all_rejected {A} (ps : list (Js.settled A)) (e : Js.Error) :
  Js.Rejected e ∈ ps -> exists e', Promise_all ps = Js.Rejected e'.
Proof.
  induction ps as [| p ps IH]; intros Hin.
  - apply elem_of_nil in Hin. destruct Hin.
  - apply elem_of_cons in Hin as [<- | Hin]; [simpl; eauto |].
    destruct p as [a | e0]; [| simpl; eauto].
    destruct (IH Hin) as [e' He']. simpl. rewrite He'. eauto.
Qed.

Lemma Promise_all_fulfilled {A} (l : list A) :
  Promise_all (map Js.Fulfilled l) = Js.Fulfilled l.
Proof. induction l as [| a l IH]; simpl; [| rewrite IH]; reflexivity. Qed.

(** Every batch has a rejected promise or consists of fulfilled ones. *)
Lemma settled_dichotomy {A} (ps : list (Js.settled A)) :
  (exists e, Js.Rejected e ∈ ps) \/ (exists l, ps = map Js.Fulfilled l).
Proof.
  induction ps as [| p ps [[e He] | [l ->]]].
  - right. exists []. reflexivity.
  - left. exists e. apply elem_of_cons. auto.
  - destruct p as [a | e].
    + right. exists (a :: l). reflexivity.
    + left. exists e. apply elem_of_cons. auto.
Qed.

(** The state a cycle with a rejected request leaves. *)
Lemma fetchData_rejected (c : Cycle) (s : State) (e : Js.Error) :
  Promise_all (promises c) = Js.Rejected e ->
  exec (fetchData c) s =
    mkState (sensorData s) (latestData s) (alerts s) (systemStatus s)
            (analytics s) false (Some connection_error) (lastUpdate s).
Proof.
  intros H. unfold exec, fetchData, try_finally, try_catch, bind.
  cbn -[promises Promise_all]. rewrite H. reflexivity.
Qed.

(** The state a cycle with five answers leaves. *)
Lemma fetchData_fulfilled (c : Cycle) (s : State) (r1 r2 r3 r4 r5 : AxiosResponse) :
  promises c = map Js.Fulfilled [r1; r2; r3; r4; r5] ->
  exec (fetchData c) s =
    mkState (data r1) (data r2) (data r3) (data r4) (data r5)
            false None (Some (now c)).
Proof.
  intros H. unfold exec, fetchData, try_finally, try_catch, bind.
  cbn -[promises Promise_all]. rewrite H, Promise_all_fulfilled. reflexivity.
Qed.

(** C1.  A pull cycle of the dashboard in which one of the five requests
    is rejected updates none of [sensorData], [latestData], [alerts],
    [systemStatus], [analytics], [lastUpdate] and sets the connection
    error; a cycle in which all five are fulfilled stores the five bodies
    and the time and leaves no error; every cycle is of one of the two
    kinds. *)
Theorem fetchData_all_or_nothing (c : Cycle) (s : State) :
  ((exists e, Js.Rejected e ∈ promises c) ->
     sensorData (exec (fetchData c) s) = sensorData s /\
     latestData (exec (fetchData c) s) = latestData s /\
     alerts (exec (fetchData c) s) = alerts s /\
     systemStatus (exec (fetchData c) s) = systemStatus s /\
     analytics (exec (fetchData c) s) = analytics s /\
     lastUpdate (exec (fetchData c) s) = lastUpdate s /\
     error (exec (fetchData c) s) = Some connection_error)
  /\ (forall r1 r2 r3 r4 r5,
        promises c = map Js.Fulfilled [r1; r2; r3; r4; r5] ->
        sensorData (exec (fetchData c) s) = data r1 /\
        latestData (exec (fetchData c) s) = data r2 /\
        alerts (exec (fetchData c) s) = data r3 /\
        systemStatus (exec (fetchData c) s) = data r4 /\
        analytics (exec (fetchData c) s) = data r5 /\
        lastUpdate (exec (fetchData c) s) = Some (now c) /\
        error (exec (fetchData c) s) = None)
  /\ ((exists e, Js.Rejected e ∈ promises c) \/
      (exists r1 r2 r3 r4 r5,
         promises c = map Js.Fulfilled [r1; r2; r3; r4; r5])).
Proof.
  split; [| split].
  - intros [e He]. destruct (Promise_all_rejected _ _ He) as [e' He'].
    rewrite (fetchData_rejected _ _ _ He'). repeat split.
  - intros r1 r2 r3 r4 r5 H.
    rewrite (fetchData_fulfilled _ _ _ _ _ _ _ H). repeat split.
  - destruct (settled_dichotomy (promises c)) as [? | [l Hl]]; [left; done |].
    right. destruct l as [| r1 [| r2 [| r3 [| r4 [| r5 [| r6 l]]]]]];
      try discriminate Hl.
    exists r1, r2, r3, r4, r5. exact Hl.
Qed.

(** A pull cycle never throws and always ends the loading state. *)
Theorem fetchData_settles (c : Cycle) (s : State) :
  fst (fetchData c s) = Normal tt /\ loading (exec (fetchData c) s) = false.
Proof.
  destruct (Promise_all (promises c)) as [l | e] eqn:H.
  - split.
    + unfold fetchData, try_finally, try_catch, bind.
      cbn -[promises Promise_all]. rewrite H.
      destruct l as [| r1 [| r2 [| r3 [| r4 [| r5 [| r6 l]]]]]]; reflexivity.
    + unfold exec, fetchData, try_finally, try_catch, bind.
      cbn -[promises Promise_all]. rewrite H.
      destruct l as [| r1 [| r2 [| r3 [| r4 [| r5 [| r6 l]]]]]]; reflexivity.
  - split.
    + unfold fetchData, try_finally, try_catch, bind.
      cbn -[promises Promise_all]. rewrite H. reflexivity.
    + rewrite (fetchData_rejected _ _ _ H). reflexivity.
Qed.

Lemma fetchData_all_or_nothing_witness :
  alerts (exec (fetchData Sample.cycle_alerts_down) initial) = alerts initial /\
  error (exec (fetchData Sample.cycle_alerts_down) initial)
    = Some connection_error.
Proof.
  destruct (proj1 (fetchData_all_or_nothing Sample.cycle_alerts_down initial))
    as (_ & _ & Ha & _ & _ & _ & He).
  - exists (Js.mkError "Network Error").
    unfold promises. simpl. do 2 apply list_elem_of_further.
    apply list_elem_of_here.
  - split; [exact Ha | exact He].
Defined.

(** C5, at the dashboard: when the alerts endpoint answers with a body
    that is not a list, [fetchData] stores that body in [alerts] as it
    is. *)
Theorem Dashboard_stores_alerts_body :
  alerts (exec (fetchData (Sample.cycle_with_alerts Sample.error_body)) initial)
    = Sample.error_body /\
  Js.isArray
    (alerts (exec (fetchData (Sample.cycle_with_alerts Sample.error_body))
                  initial)) = false.
Proof. split; reflexivity. Qed.

End DashboardFacts.

(** ** Push notifications *)

Section WebSocketFacts.
Import Eff ComprehensiveDashboard.

Variable JSON_parse : string -> Js.Error + Js.value.

(** A pull cycle ends in the [catch] block, at the first
    [apiService.get]. *)
Lemma fetchData_run (c : Cycle) (w : World) :
  fetchData c w =
    (Normal tt,
     {| view := mkState (activeTab (view w)) (systemStatus (view w))
                  (sensorReadings (view w)) (alerts (view w))
                  (efficiencyData (view w)) (forecastData (view w))
                  false (Some connection_error) (lastUpdate (view w))
                  (ws (view w));
        requests := requests w;
        console := (console w ++ ["Error fetching data:"])%list |}).
Proof. reflexivity. Qed.

(** What the handler does is decided by the [type] of the parsed frame. *)
Lemma onmessage_cases (c : Cycle) (event_data : string) (w : World) :
  (Spec.tagged JSON_parse event_data "sensor_data" \/
   Spec.tagged JSON_parse event_data "alert") /\
  onmessage JSON_parse c event_data w = fetchData c w
  \/
  ~ (Spec.tagged JSON_parse event_data "sensor_data" \/
     Spec.tagged JSON_parse event_data "alert") /\
  (onmessage JSON_parse c event_data w = (Normal tt, w) \/
   onmessage JSON_parse c event_data w =
     (Normal tt,
      mkWorld (view w) (requests w)
              (console w ++ ["Error parsing WebSocket message:"]))).
Proof.
  unfold Spec.tagged, onmessage, try_catch, bind, lift.
  destruct (JSON_parse event_data) as [e | message] eqn:Hparse; simpl.
  { right. split; [| right; reflexivity].
    intros [(m & [=] & _) | (m & [=] & _)]. }
  destruct (Js.get message "type") as [e | type] eqn:Htype; simpl.
  { right. split; [| right; reflexivity].
    intros [(m & [= <-] & H) | (m & [= <-] & H)]; congruence. }
  destruct (Js.is_string type "sensor_data") eqn:Hs; simpl.
  { left. split; [| reflexivity]. left. exists message. split; [done |].
    destruct type; try discriminate Hs. simpl in Hs.
    apply String.eqb_eq in Hs. subst. exact Htype. }
  destruct (Js.is_string type "alert") eqn:Ha; simpl.
  { left. split; [| reflexivity]. right. exists message. split; [done |].
    destruct type; try discriminate Ha. simpl in Ha.
    apply String.eqb_eq in Ha. subst. exact Htype. }
  right. split; [| left; reflexivity].
  intros [(m & [= <-] & H) | (m & [= <-] & H)];
    rewrite Htype in H; injection H as ->; discriminate.
Qed.

(** C2.  A frame whose parsed [type] is [sensor_data] or [alert] makes the
    handler do exactly what one invocation of [fetchData] does, whatever
    else the frame carries and whatever the backend would answer.  In this
    repository that invocation ends at its first [apiService.get]: it
    writes its one line to the console, issues no request, sets the
    connection error and ends the loading state, and every other field of
    the state is as before.  Any other frame (also one that does not
    parse) invokes nothing: the state and the requests are as they were,
    and the console gets at most the handler's own line. *)
Theorem onmessage_refetch (c : Cycle) (event_data : string) (w : World) :
  ((Spec.tagged JSON_parse event_data "sensor_data" \/
    Spec.tagged JSON_parse event_data "alert") ->
     exec (onmessage JSON_parse c event_data) w = exec (fetchData c) w /\
     console (exec (onmessage JSON_parse c event_data) w)
       = (console w ++ ["Error fetching data:"])%list /\
     requests (exec (onmessage JSON_parse c event_data) w) = requests w /\
     view (exec (onmessage JSON_parse c event_data) w)
       = mkState (activeTab (view w)) (systemStatus (view w))
           (sensorReadings (view w)) (alerts (view w))
           (efficiencyData (view w)) (forecastData (view w))
           false (Some connection_error) (lastUpdate (view w)) (ws (view w)))
  /\ (~ (Spec.tagged JSON_parse event_data "sensor_data" \/
        Spec.tagged JSON_parse event_data "alert") ->
      view (exec (onmessage JSON_parse c event_data) w) = view w /\
      requests (exec (onmessage JSON_parse c event_data) w) = requests w /\
      (console (exec (onmessage JSON_parse c event_data) w) = console w \/
       console (exec (onmessage JSON_parse c event_data) w)
         = (console w ++ ["Error parsing WebSocket message:"])%list)).
Proof.
  destruct (onmessage_cases c event_data w) as [[Hyes Hrun] | [Hno Hrun]].
  - split; [intros _ | tauto].
    unfold exec. rewrite Hrun, fetchData_run. done.
  - split; [tauto | intros _]. unfold exec.
    destruct Hrun as [-> | ->]; simpl; auto.
Qed.

(** A pull cycle of the comprehensive dashboard never gets to its
    requests: [apiService] has no method [get], so the first element of
    the array for [Promise.all] throws inside the [try].  Whatever the
    backend would answer, the cycle returns normally, issues no request,
    leaves every entity and [lastUpdate] as they were, sets the connection
    error and ends the loading state. *)
Theorem fetchData_fails (c : Cycle) (w : World) :
  (exists e, Api.apiService_method "get" = inl e) /\
  fst (fetchData c w) = Normal tt /\
  requests (exec (fetchData c) w) = requests w /\
  view (exec (fetchData c) w)
    = mkState (activeTab (view w)) (systemStatus (view w))
        (sensorReadings (view w)) (alerts (view w))
        (efficiencyData (view w)) (forecastData (view w))
        false (Some connection_error) (lastUpdate (view w)) (ws (view w)).
Proof. split; [eexists; reflexivity | repeat split]. Qed.

End WebSocketFacts.

Lemma onmessage_refetch_witness :
  ComprehensiveDashboard.console
    (Eff.exec (ComprehensiveDashboard.onmessage Sample.parse_frame
                 Sample.answered "alert-frame")
              Sample.world0)
  = ["Error fetching data:"].
Proof.
  refine (proj1 (proj2 (proj1
    (onmessage_refetch Sample.parse_frame Sample.answered "alert-frame"
       Sample.world0) _))).
  right. eexists. split; reflexivity.
Defined.

(** ** The alert pages *)

Section AlertFetchFacts.
Import Eff Api.

Lemma AlertsPage_normalize_isArray (response : AxiosResponse) :
  Js.isArray (AlertsPage.normalize response) = true.
Proof.
  unfold AlertsPage.normalize.
  destruct (Js.truthy (data response)); [| reflexivity].
  destruct (Js.isArray (data response)) eqn:H; [exact H | reflexivity].
Qed.

Lemma AlertsPageDebug_normalize_isArray (response : AxiosResponse) :
  Js.isArray (AlertsPageDebug.normalize response) = true.
Proof.
  unfold AlertsPageDebug.normalize.
  destruct (Js.truthy (data response)); [| reflexivity].
  destruct (Js.isArray (data response)) eqn:H; [exact H | reflexivity].
Qed.

(** [AlertsPage.fetchAlerts] always leaves a list in [alerts]: the body of
    the answer when that is a list, the empty list for any other body and
    when the request fails. *)
Theorem AlertsPage_fetchAlerts_stores_list
    (getAlerts : Js.settled AxiosResponse) (s : AlertsPage.State) :
  Js.isArray (AlertsPage.alerts (exec (AlertsPage.fetchAlerts getAlerts) s))
    = true
  /\ (forall items,
        getAlerts = Js.Fulfilled (mkAxiosResponse (Js.Arr items)) ->
        AlertsPage.alerts (exec (AlertsPage.fetchAlerts getAlerts) s)
          = Js.Arr items)
  /\ (forall response,
        getAlerts = Js.Fulfilled response ->
        Js.isArray (data response) = false ->
        AlertsPage.alerts (exec (AlertsPage.fetchAlerts getAlerts) s)
          = Js.Arr [])
  /\ (forall e,
        getAlerts = Js.Rejected e ->
        AlertsPage.alerts (exec (AlertsPage.fetchAlerts getAlerts) s)
          = Js.Arr []).
Proof.
  split; [| split; [| split]].
  - destruct getAlerts as [response | e]; [| reflexivity].
    apply AlertsPage_normalize_isArray.
  - intros items ->. reflexivity.
  - intros [body] -> H. simpl in H.
    destruct body; first [discriminate H | reflexivity | idtac].
    all: unfold exec, AlertsPage.fetchAlerts, AlertsPage.normalize; simpl;
      match goal with |- context [if ?b then _ else _] => destruct b end;
      reflexivity.
  - intros e ->. reflexivity.
Qed.

(** So does [AlertsPageDebug.fetchAlerts]. *)
Theorem AlertsPageDebug_fetchAlerts_stores_list
    (getAlerts : Js.settled AxiosResponse) (s : AlertsPageDebug.State) :
  Js.isArray
    (AlertsPageDebug.alerts (exec (AlertsPageDebug.fetchAlerts getAlerts) s))
    = true.
Proof.
  destruct getAlerts as [response | e]; [| reflexivity].
  apply AlertsPageDebug_normalize_isArray.
Qed.

(** So does [AlertsPageSimple.fetchAlerts]. *)
Theorem AlertsPageSimple_fetchAlerts_stores_list
    (reply : Js.settled AlertsPageSimple.Response) (s : AlertsPageSimple.State) :
  Js.isArray
    (AlertsPageSimple.alerts (exec (AlertsPageSimple.fetchAlerts reply) s))
    = true.
Proof.
  destruct reply as [[[] line [body | e]] | e]; try reflexivity.
  destruct body; reflexivity.
Qed.

End AlertFetchFacts.

(** ** Metric cards: bands and trends *)

Section FloatOrder.
Import SpecFloat.

(** Swapping the arguments of a comparison reverses its answer. *)
Lemma SFcompare_swap (a b : spec_float) :
  SFcompare b a = option_map CompOpp (SFcompare a b).
Proof.
  destruct a as [sa | sa | | sa ma ea], b as [sb | sb | | sb mb eb]; simpl;
    try destruct sa; try destruct sb; try reflexivity.
  all: rewrite (Z.compare_antisym ea eb); destruct (ea ?= eb)%Z; simpl;
    try reflexivity.
  all: fold (Pos.compare mb ma); fold (Pos.compare ma mb);
    rewrite (Pos.compare_antisym ma mb);
    try rewrite CompOpp_involutive; reflexivity.
Qed.

(** Only NaN is unordered. *)
Lemma SFcompare_unordered (a b : spec_float) :
  SFcompare a b = None -> a = S754_nan \/ b = S754_nan.
Proof.
  destruct a as [sa | sa | | sa ma ea], b as [sb | sb | | sb mb eb]; simpl;
    auto; discriminate.
Qed.

Lemma leb_not_ltb (x y : float) :
  PrimFloat.leb x y = true -> PrimFloat.ltb y x = false.
Proof.
  rewrite leb_spec, ltb_spec. unfold SFleb, SFltb.
  rewrite (SFcompare_swap (Prim2SF x) (Prim2SF y)).
  destruct (SFcompare (Prim2SF x) (Prim2SF y)) as [[] |]; simpl; congruence.
Qed.

Lemma ltb_ordered_r (x y : float) :
  PrimFloat.ltb x y = true -> Prim2SF y <> S754_nan.
Proof.
  rewrite ltb_spec. unfold SFltb. intros H Hn. rewrite Hn in H.
  destruct (Prim2SF x); discriminate.
Qed.

Lemma ltb_ordered_l (x y : float) :
  PrimFloat.ltb x y = true -> Prim2SF x <> S754_nan.
Proof.
  rewrite ltb_spec. unfold SFltb. intros H Hn. rewrite Hn in H.
  discriminate.
Qed.

Lemma not_ltb_leb (x y : float) :
  Prim2SF x <> S754_nan -> Prim2SF y <> S754_nan ->
  PrimFloat.ltb y x = false -> PrimFloat.leb x y = true.
Proof.
  intros Hx Hy. rewrite leb_spec, ltb_spec. unfold SFleb, SFltb.
  rewrite (SFcompare_swap (Prim2SF x) (Prim2SF y)).
  destruct (SFcompare (Prim2SF x) (Prim2SF y)) as [[] |] eqn:E; simpl;
    try congruence.
  destruct (SFcompare_unordered _ _ E); contradiction.
Qed.

End FloatOrder.

Section MetricFacts.
Import Dashboard.

(** The shape of every branch of [getMetricStatus]. *)
Lemma band_cases (c1 c2 : bool) :
  let r := if c1 then "critical" else if c2 then "warning" else "good" in
  (r = "critical" <-> c1 = true) /\
  (r = "warning" <-> c1 = false /\ c2 = true) /\
  (r = "good" <-> c1 = false /\ c2 = false).
Proof. destruct c1, c2; simpl; repeat split; intros; try easy. Qed.

(** Above [lo] and not above [hi], for a number [hi]. *)
Lemma between_above (v lo hi : float) :
  Prim2SF hi <> SpecFloat.S754_nan ->
  gt v hi = false /\ gt v lo = true <->
  gt v lo = true /\ Spec.le v hi = true.
Proof.
  unfold gt, Spec.le. intros Hhi. split.
  - intros [H1 H2]. split; [exact H2 |].
    apply not_ltb_leb; [exact (ltb_ordered_r _ _ H2) | exact Hhi | exact H1].
  - intros [H1 H2]. split; [apply leb_not_ltb; exact H2 | exact H1].
Qed.

(** Below [hi] and not below [lo], for a number [lo]. *)
Lemma between_below (v lo hi : float) :
  Prim2SF lo <> SpecFloat.S754_nan ->
  lt v lo = false /\ lt v hi = true <->
  Spec.le lo v = true /\ lt v hi = true.
Proof.
  unfold lt, Spec.le. intros Hlo. split.
  - intros [H1 H2]. split; [| exact H2].
    apply not_ltb_leb; [exact Hlo | exact (ltb_ordered_l _ _ H2) | exact H1].
  - intros [H1 H2]. split; [apply leb_not_ltb; exact H1 | exact H2].
Qed.

Lemma not_both (P Q : Prop) (c1 c2 : bool) :
  (c1 = false /\ c2 = true <-> P /\ Q) ->
  (c1 = false /\ c2 = false <-> c1 = false /\ ~ (P /\ Q)).
Proof.
  intros H. split.
  - intros [-> ->]. split; [reflexivity |].
    intros HPQ. apply H in HPQ. destruct HPQ; discriminate.
  - intros [-> Hn]. split; [reflexivity |].
    destruct c2; [| reflexivity].
    exfalso. apply Hn. apply H. split; reflexivity.
Qed.

Lemma high_band (v hi lo : float) :
  Prim2SF hi <> SpecFloat.S754_nan ->
  let r := if gt v hi then "critical"
           else if gt v lo then "warning" else "good" in
  (r = "critical" <-> gt v hi = true) /\
  (r = "warning" <-> gt v lo = true /\ Spec.le v hi = true) /\
  (r = "good" <->
     gt v hi = false /\ ~ (gt v lo = true /\ Spec.le v hi = true)).
Proof.
  intros Hhi r.
  destruct (band_cases (gt v hi) (gt v lo)) as (Hc & Hw & Hg). fold r in Hc, Hw, Hg.
  pose proof (between_above v lo hi Hhi) as Hb.
  split; [exact Hc | split].
  - rewrite Hw. exact Hb.
  - rewrite Hg. apply not_both. exact Hb.
Qed.

Lemma low_band (v lo hi : float) :
  Prim2SF lo <> SpecFloat.S754_nan ->
  let r := if lt v lo then "critical"
           else if lt v hi then "warning" else "good" in
  (r = "critical" <-> lt v lo = true) /\
  (r = "warning" <-> Spec.le lo v = true /\ lt v hi = true) /\
  (r = "good" <->
     lt v lo = false /\ ~ (Spec.le lo v = true /\ lt v hi = true)).
Proof.
  intros Hlo r.
  destruct (band_cases (lt v lo) (lt v hi)) as (Hc & Hw & Hg). fold r in Hc, Hw, Hg.
  pose proof (between_below v lo hi Hlo) as Hb.
  split; [exact Hc | split].
  - rewrite Hw. exact Hb.
  - rewrite Hg. apply not_both. exact Hb.
Qed.

(** C4.  For every number [v]: a temperature is [critical] iff [v > 100],
    [warning] iff [80 < v <= 100] and otherwise [good]; a state of charge
    is [critical] iff [v < 15], [warning] iff [15 <= v < 30] and otherwise
    [good]; a voltage is [critical] iff [v < 180], [warning] iff
    [180 <= v < 200] and otherwise [good].  In particular the temperatures
    101, 85, 50, 80 and 100 are critical, warning, good, good and warning,
    and the charges 12, 25 and 50 are critical, warning and good. *)
Theorem getMetricStatus_bands (v : float) :
  ((getMetricStatus "temperature" v = "critical" <-> gt v 100 = true) /\
   (getMetricStatus "temperature" v = "warning" <->
      gt v 80 = true /\ Spec.le v 100 = true) /\
   (getMetricStatus "temperature" v = "good" <->
      gt v 100 = false /\ ~ (gt v 80 = true /\ Spec.le v 100 = true)))
  /\
  ((getMetricStatus "soc" v = "critical" <-> lt v 15 = true) /\
   (getMetricStatus "soc" v = "warning" <->
      Spec.le 15 v = true /\ lt v 30 = true) /\
   (getMetricStatus "soc" v = "good" <->
      lt v 15 = false /\ ~ (Spec.le 15 v = true /\ lt v 30 = true)))
  /\
  ((getMetricStatus "voltage" v = "critical" <-> lt v 180 = true) /\
   (getMetricStatus "voltage" v = "warning" <->
      Spec.le 180 v = true /\ lt v 200 = true) /\
   (getMetricStatus "voltage" v = "good" <->
      lt v 180 = false /\ ~ (Spec.le 180 v = true /\ lt v 200 = true)))
  /\
  (getMetricStatus "temperature" 101 = "critical" /\
   getMetricStatus "temperature" 85 = "warning" /\
   getMetricStatus "temperature" 50 = "good" /\
   getMetricStatus "temperature" 80 = "good" /\
   getMetricStatus "temperature" 100 = "warning" /\
   getMetricStatus "soc" 12 = "critical" /\
   getMetricStatus "soc" 25 = "warning" /\
   getMetricStatus "soc" 50 = "good").
Proof.
  split; [| split; [| split]].
  - apply (high_band v 100 80). vm_compute. discriminate.
  - apply (low_band v 15 30). vm_compute. discriminate.
  - apply (low_band v 180 200). vm_compute. discriminate.
  - repeat split.
Qed.

(** The guard of [calculateTrend] lets a number through exactly when it is
    neither zero nor NaN. *)
Lemma guard_passes (previous : reading) :
  negb (truthy previous) || is_zero previous = false <->
  exists x, previous = RNum x /\
            PrimFloat.eqb x 0%float = false /\ Js.is_nan x = false.
Proof.
  destruct previous as [| | x]; simpl.
  - split; [discriminate | intros (x & [=] & _)].
  - split; [discriminate | intros (x & [=] & _)].
  - rewrite negb_involutive. split.
    + intros H. exists x. apply orb_false_elim in H as [H _].
      apply orb_false_elim in H as [H1 H2]. auto.
    + intros (y & [= <-] & H1 & H2). rewrite H1, H2. reflexivity.
Qed.

(** On arguments that are numbers, [null] or [undefined],
    [calculateTrend] returns 0 when [previous] is [undefined], [null],
    zero or NaN, and the value of [((current - previous) / previous) * 100]
    for every other [previous]; the division is evaluated only past the
    guard, where [previous] is a number other than zero, so the divisor is
    never zero. *)
Theorem calculateTrend_guarded (current previous : reading) :
  ((previous = RUndefined \/ previous = RNull \/
    (exists x, previous = RNum x /\
               (PrimFloat.eqb x 0%float = true \/ Js.is_nan x = true))) ->
   calculateTrend current previous = 0%float)
  /\ (forall x,
        previous = RNum x ->
        PrimFloat.eqb x 0%float = false -> Js.is_nan x = false ->
        calculateTrend current previous = Spec.trend current previous)
  /\ (negb (truthy previous) || is_zero previous = false ->
      PrimFloat.eqb (to_number previous) 0%float = false)
  /\ (calculateTrend current previous = 0%float \/
      calculateTrend current previous = Spec.trend current previous).
Proof.
  split; [| split; [| split]].
  - unfold calculateTrend.
    intros [-> | [-> | (x & -> & [H | H])]]; simpl; try reflexivity.
    + rewrite H. reflexivity.
    + rewrite H, orb_true_r. reflexivity.
  - intros x -> H1 H2. unfold calculateTrend. simpl. rewrite H1, H2.
    reflexivity.
  - intros H. apply guard_passes in H as (x & -> & H1 & _). exact H1.
  - unfold calculateTrend.
    destruct (negb (truthy previous) || is_zero previous); auto.
Qed.

Lemma calculateTrend_guarded_witness :
  calculateTrend (RNum 110%float) (RNum 100%float) = 10%float.
Proof.
  rewrite (proj1 (proj2 (calculateTrend_guarded (RNum 110%float)
                           (RNum 100%float))) 100%float);
    reflexivity.
Defined.

(** NaN is neither absent nor equal to zero, yet [calculateTrend(5, NaN)]
    is 0, which is not the value of the expression (NaN). *)
Lemma calculateTrend_nan :
  is_zero (RNum nan) = false /\
  calculateTrend (RNum 5%float) (RNum nan) = 0%float /\
  Js.is_nan (Spec.trend (RNum 5%float) (RNum nan)) = true /\
  Js.is_nan (calculateTrend (RNum 5%float) (RNum nan)) = false.
Proof. repeat split. Qed.

(** On numbers, [null] and [undefined] the two renderings of
    [calculateTrend] agree. *)
Lemma calculateTrend_any_reading
    (StringToNumber : string -> float)
    (ObjectToNumber : Js.value -> Js.Error + float)
    (current previous : reading) :
  calculateTrend_any StringToNumber ObjectToNumber
    (value_of current) (value_of previous)
  = inr (calculateTrend current previous).
Proof.
  destruct current, previous; try reflexivity;
    unfold calculateTrend_any, calculateTrend; simpl;
    match goal with |- context [if ?b then _ else _] => destruct b end;
    reflexivity.
Qed.

(** C8, at a previous reading that the JSON body carries as the string
    ['0']: a string that is not empty is truthy and is not [=== 0], so the
    guard lets it pass; as a divisor it converts to 0.  So
    [calculateTrend(5, '0')] divides by zero and returns [Infinity], and
    [calculateTrend(0, '0')] returns NaN. *)
Theorem calculateTrend_zero_string
    (StringToNumber : string -> float)
    (ObjectToNumber : Js.value -> Js.Error + float) :
  negb (Js.truthy (Js.Str "0")) || strictly_zero (Js.Str "0") = false /\
  ToNumber StringToNumber ObjectToNumber (Js.Str "0") = inr 0%float /\
  calculateTrend_any StringToNumber ObjectToNumber (Js.Num 5%float) (Js.Str "0")
    = inr infinity /\
  calculateTrend_any StringToNumber ObjectToNumber (Js.Num 0%float) (Js.Str "0")
    = inr nan.
Proof. repeat split. Qed.

End MetricFacts.

(** ** The filtered and sorted alert list *)

Section Strings.

Lemma starts_with_spec (s t : string) :
  Js.starts_with s t = true <-> exists post, s = t ++ post.
Proof.
  revert s. induction t as [| b t IH]; intros s; simpl.
  - split; [intros _; exists s; reflexivity | reflexivity].
  - destruct s as [| a s]; simpl.
    + split; [discriminate | intros (post & [=])].
    + rewrite andb_true_iff, Ascii.eqb_eq, IH. split.
      * intros [-> [post ->]]. exists post. reflexivity.
      * intros (post & [= -> ->]). split; [reflexivity | eauto].
Qed.

Lemma includes_unfold (s t : string) :
  Js.includes s t =
    Js.starts_with s t ||
    match s with
    | EmptyString => false
    | String _ s' => Js.includes s' t
    end.
Proof. destruct s; reflexivity. Qed.

(** [s.includes(t)] holds exactly when [t] occurs in [s]. *)
Lemma includes_spec (s t : string) :
  Js.includes s t = true <-> exists pre post, s = pre ++ t ++ post.
Proof.
  split.
  - induction s as [| c s IH]; rewrite includes_unfold, orb_true_iff.
    + intros [H | H]; [| discriminate].
      apply starts_with_spec in H as [post ->]. exists "", post. reflexivity.
    + intros [H | H].
      * apply starts_with_spec in H as [post ->]. exists "", post. reflexivity.
      * destruct (IH H) as (pre & post & ->).
        exists (String c pre), post. reflexivity.
  - intros (pre & post & ->). induction pre as [| c pre IH].
    + rewrite includes_unfold, orb_true_iff. left.
      apply starts_with_spec. exists post. reflexivity.
    + rewrite includes_unfold, orb_true_iff. right. exact IH.
Qed.

End Strings.

Section SortFacts.
Context {A : Type} (comparefn : A -> A -> float).

Lemma insert_Permutation (x : A) (l : list A) :
  AlertsPage.insert comparefn x l ≡ₚ x :: l.
Proof.
  induction l as [| y l IH]; simpl; [reflexivity |].
  destruct (PrimFloat.ltb 0%float (comparefn x y)); [| reflexivity].
  rewrite IH. apply perm_swap.
Qed.

(** Sorting rearranges: nothing is added, dropped or repeated. *)
Lemma sort_Permutation (l : list A) : AlertsPage.sort comparefn l ≡ₚ l.
Proof.
  induction l as [| x l IH]; simpl; [reflexivity |].
  rewrite insert_Permutation, IH. reflexivity.
Qed.

End SortFacts.

Section ViewFacts.
Import AlertsPage.

Variable Date_time : string -> float.
Variable toLowerCase : string -> string.

Lemma filter_sublist {A} (f : A -> bool) (l : list A) :
  List.filter f l `sublist_of` l.
Proof.
  induction l as [| x l IH]; simpl; [constructor |].
  destruct (f x); [apply sublist_skip | apply sublist_cons]; exact IH.
Qed.

(** What passing the filter means for one alert. *)
Lemma keep_sound (filter searchTerm : string) (alert : Alert) :
  keep toLowerCase filter searchTerm alert = true ->
  (filter = "active" -> resolved alert = false) /\
  (filter = "resolved" -> resolved alert = true) /\
  (searchTerm <> "" ->
     Spec.contains_ci toLowerCase (message alert) searchTerm \/
     Spec.contains_ci toLowerCase (alert_type alert) searchTerm \/
     Spec.contains_ci toLowerCase (severity alert) searchTerm).
Proof.
  unfold keep, Spec.contains_ci. intros H. split; [| split].
  - intros ->. simpl in H. destruct (resolved alert); [discriminate | reflexivity].
  - intros ->. simpl in H. destruct (resolved alert); [reflexivity | discriminate].
  - intros Hterm.
    destruct (String.eqb filter "active" && resolved alert); [discriminate |].
    destruct (String.eqb filter "resolved" && negb (resolved alert));
      [discriminate |].
    destruct (String.eqb_spec searchTerm "") as [-> | _]; [done |].
    simpl in H. rewrite !orb_true_iff, !includes_spec in H. tauto.
Qed.

(** Every alert shown has passed the filter. *)
Lemma shown_kept (alerts : list Alert) (filter searchTerm sortBy : string) :
  Forall (fun alert => keep toLowerCase filter searchTerm alert = true)
         (filteredAndSortedAlerts Date_time toLowerCase alerts
            filter searchTerm sortBy).
Proof.
  unfold filteredAndSortedAlerts.
  eapply Permutation_Forall; [symmetry; apply sort_Permutation |].
  apply Forall_forall. intros alert Hin.
  apply list_elem_of_In, filter_In in Hin. tauto.
Qed.

(** C10.  The list shown is a rearrangement of a sub-list of the alerts
    held in state; under the filter [active] every alert shown is
    unresolved, under [resolved] every alert shown is resolved, and under a
    non-empty search term every alert shown contains the term, ignoring
    case, in its message, its type or its severity. *)
Theorem filteredAndSortedAlerts_sound
    (alerts : list Alert) (filter searchTerm sortBy : string) :
  filteredAndSortedAlerts Date_time toLowerCase alerts filter searchTerm sortBy
    ⊆+ alerts
  /\ (filter = "active" ->
      Forall (fun alert => resolved alert = false)
        (filteredAndSortedAlerts Date_time toLowerCase alerts
           filter searchTerm sortBy))
  /\ (filter = "resolved" ->
      Forall (fun alert => resolved alert = true)
        (filteredAndSortedAlerts Date_time toLowerCase alerts
           filter searchTerm sortBy))
  /\ (searchTerm <> "" ->
      Forall (fun alert =>
                Spec.contains_ci toLowerCase (message alert) searchTerm \/
                Spec.contains_ci toLowerCase (alert_type alert) searchTerm \/
                Spec.contains_ci toLowerCase (severity alert) searchTerm)
        (filteredAndSortedAlerts Date_time toLowerCase alerts
           filter searchTerm sortBy)).
Proof.
  pose proof (shown_kept alerts filter searchTerm sortBy) as Hkept.
  split; [| split; [| split]].
  - unfold filteredAndSortedAlerts.
    transitivity (List.filter (keep toLowerCase filter searchTerm) alerts).
    + apply Permutation_submseteq, sort_Permutation.
    + apply sublist_submseteq, filter_sublist.
  - intros Hf. eapply Forall_impl; [exact Hkept |].
    intros alert H. apply keep_sound in H. tauto.
  - intros Hf. eapply Forall_impl; [exact Hkept |].
    intros alert H. apply keep_sound in H. tauto.
  - intros Ht. eapply Forall_impl; [exact Hkept |].
    intros alert H. apply keep_sound in H. tauto.
Qed.

End ViewFacts.

Lemma filteredAndSortedAlerts_sound_witness :
  Forall (fun alert => AlertsPage.resolved alert = false)
    (AlertsPage.filteredAndSortedAlerts Sample.minutes Js.toLowerCase
       Sample.three_alerts "active" "temp" "severity").
Proof.
  apply (proj1 (proj2 (filteredAndSortedAlerts_sound Sample.minutes
           Js.toLowerCase Sample.three_alerts "active" "temp" "severity"))).
  reflexivity.
Defined.

(** * Further properties *)

(** ** Navigation and the application shell *)

Section NavigationFacts.
Import Eff AuthStore.

(** [hasRole] for a role of the hierarchy, as a function of the session's
    rank. *)
Lemma hasRole_session_rank (required : string) (q : Z) (s : AuthState) :
  Spec.rank required = Some q ->
  hasRole required s =
    match Spec.session_rank s with
    | Some p => (q <=? p)%Z
    | None => false
    end.
Proof.
  intros Hq. pose proof (hasRole_known required q s Hq) as H.
  unfold Spec.session_rank.
  destruct (hasRole required s) eqn:E.
  - destruct (proj1 H eq_refl) as (u & p & -> & -> & Hle).
    symmetry. apply Z.leb_le. exact Hle.
  - destruct (user s) as [u |]; [| reflexivity].
    destruct (Spec.user_rank u) as [p |] eqn:Hp; [| reflexivity].
    destruct (Z.leb_spec q p) as [Hle |]; [| reflexivity].
    assert (false = true) as Habs by (apply H; eauto). discriminate Habs.
Qed.

Lemma session_rank_cases (s : AuthState) (p : Z) :
  Spec.session_rank s = Some p -> p = 1%Z \/ p = 2%Z.
Proof.
  unfold Spec.session_rank, Spec.user_rank.
  destruct (user s) as [u |]; [| discriminate].
  destruct (role u) as [r |]; [| discriminate].
  intros H. destruct (rank_cases _ _ H) as [[_ ->] | [_ ->]]; auto.
Qed.

(** The navigation shows all four items to a user whose role is [admin],
    the first three (no settings) to a user whose role is [operator], and
    nothing to any other session: no user, no role, or a role outside the
    hierarchy. *)
Theorem filteredNavItems_by_rank (s : AuthState) :
  map Navigation.id (Navigation.filteredNavItems s) =
    match Spec.session_rank s with
    | Some p =>
        if (2 <=? p)%Z
        then ["dashboard"; "analytics"; "alerts"; "settings"]
        else ["dashboard"; "analytics"; "alerts"]
    | None => []
    end.
Proof.
  unfold Navigation.filteredNavItems, Navigation.navigationItems. simpl.
  rewrite (hasRole_session_rank "operator" 1 s eq_refl).
  rewrite (hasRole_session_rank "admin" 2 s eq_refl).
  destruct (Spec.session_rank s) as [p |] eqn:Hp; [| reflexivity].
  destruct (session_rank_cases _ _ Hp) as [-> | ->]; reflexivity.
Qed.

(** An offered click on the navigation never opens the settings for a
    session that is not an admin's. *)
Theorem NavClicked_respects_roles (st : App.State) (item : Navigation.NavItem) :
  App.offered (App.NavClicked item) st ->
  hasRole "admin" (App.auth st) = false ->
  App.currentView (App.handle (App.NavClicked item) st) <> "settings".
Proof.
  unfold App.offered. destruct (App.render st); try contradiction.
  intros Hin Hadmin. simpl.
  apply (in_map Navigation.id) in Hin.
  rewrite filteredNavItems_by_rank in Hin.
  rewrite (hasRole_session_rank "admin" 2 _ eq_refl) in Hadmin.
  destruct (Spec.session_rank (App.auth st)) as [p |]; [| destruct Hin].
  rewrite Hadmin in Hin. simpl in Hin.
  intros Heq. rewrite Heq in Hin.
  repeat (destruct Hin as [Hin | Hin]; [discriminate Hin |]). exact Hin.
Qed.

Lemma NavClicked_respects_roles_witness :
  hasRole "admin" (App.auth Sample.operator_app) = false /\
  App.currentView
    (App.handle (App.NavClicked Sample.alerts_item) Sample.operator_app)
    <> "settings".
Proof.
  split; [reflexivity |].
  apply NavClicked_respects_roles; [| reflexivity].
  vm_compute. right. right. left. reflexivity.
Defined.

(** Logging out and in again keeps the view: after the logout button and
    a submission of the login form, whatever the role chosen, the shell
    shows the page of the [currentView] the earlier session left.  So an
    operator who logs in after an admin left the settings open is shown
    the settings page, which the navigation does not offer to operators. *)
Theorem relogin_keeps_view (st : App.State) (selectedRole : string) :
  App.offered App.LogoutClicked st ->
  In selectedRole LoginForm.demo_roles ->
  App.offered (App.LoginSubmitted selectedRole)
              (App.handle App.LogoutClicked st) /\
  App.render (App.handle (App.LoginSubmitted selectedRole)
                (App.handle App.LogoutClicked st))
    = App.Shell (App.renderCurrentView (App.currentView st)) /\
  (App.currentView st = "settings" -> selectedRole = "operator" ->
   App.render (App.handle (App.LoginSubmitted selectedRole)
                 (App.handle App.LogoutClicked st))
     = App.Shell App.ShowSettings /\
   ~ In "settings"
       (map Navigation.id
          (Navigation.filteredNavItems
             (App.auth (App.handle (App.LoginSubmitted selectedRole)
                          (App.handle App.LogoutClicked st)))))).
Proof.
  unfold App.offered at 1. unfold App.render at 1.
  destruct st as [[u t a l e] view]. simpl.
  destruct l; [contradiction |]. destruct a; simpl; [| contradiction].
  intros _ Hrole. split; [| split].
  - unfold App.offered, App.render. simpl. exact Hrole.
  - reflexivity.
  - intros -> ->. split; [reflexivity |].
    rewrite filteredNavItems_by_rank. simpl.
    intros Hin. repeat (destruct Hin as [Hin | Hin]; [discriminate Hin |]).
    exact Hin.
Qed.

Lemma relogin_keeps_view_witness :
  App.render (App.handle (App.LoginSubmitted "operator")
                (App.handle App.LogoutClicked Sample.admin_on_settings))
    = App.Shell App.ShowSettings.
Proof.
  refine (proj1 (proj2 (relogin_keeps_view Sample.admin_on_settings
                          "operator" _ _))).
  - exact I.
  - simpl. auto.
Defined.

End NavigationFacts.

(** ** [login] *)

Section LoginFacts.
Import Eff AuthStore.

Variable backend : string -> string -> Js.settled Response.

(** [login] never throws and always ends the loading state.  When it
    reports success the store is authenticated with the user and token of
    the reply and holds no error.  When it reports failure it leaves
    [user], [token] and [isAuthenticated] as they were and stores the
    message it returns; for a reply that is not [ok] the message is
    [Invalid credentials], whatever the status. *)
Theorem login_outcome (username password : string) (s : AuthState) :
  exists r,
    fst (login backend username password s) = Normal r /\
    isLoading (exec (login backend username password) s) = false /\
    (success r = true ->
       isAuthenticated (exec (login backend username password) s) = true /\
       error (exec (login backend username password) s) = None /\
       result_error r = None /\
       exists response data,
         backend username password = Js.Fulfilled response /\
         ok response = true /\
         json response = Js.Fulfilled (Some data) /\
         user (exec (login backend username password) s) = data_user data /\
         token (exec (login backend username password) s)
           = access_token data) /\
    (success r = false ->
       user (exec (login backend username password) s) = user s /\
       token (exec (login backend username password) s) = token s /\
       isAuthenticated (exec (login backend username password) s)
         = isAuthenticated s /\
       error (exec (login backend username password) s) = result_error r /\
       result_error r <> None) /\
    (forall response,
       backend username password = Js.Fulfilled response ->
       ok response = false ->
       result_error r = Some "Invalid credentials").
Proof.
  destruct s as [u t a l e].
  unfold exec, login, set, bind, try_catch, modify, await, ret, throw. simpl.
  destruct (backend username password) as [[okb js] | err]; simpl.
  - destruct okb; simpl.
    + destruct js as [[d |] | err]; simpl; eexists; (split; [reflexivity |]);
        simpl; (split; [reflexivity |]).
      * split; [| split; [discriminate |]].
        -- intros _. repeat split. eauto 10.
        -- intros response [= <-]. discriminate.
      * split; [discriminate | split].
        -- intros _. repeat split. discriminate.
        -- intros response [= <-]. discriminate.
      * split; [discriminate | split].
        -- intros _. repeat split. discriminate.
        -- intros response [= <-]. discriminate.
    + eexists. split; [reflexivity |]. simpl. split; [reflexivity |].
      split; [discriminate | split].
      * intros _. repeat split. discriminate.
      * intros response _ _. reflexivity.
  - eexists. split; [reflexivity |]. simpl. split; [reflexivity |].
    split; [discriminate | split].
    + intros _. repeat split. discriminate.
    + intros response [=].
Qed.

End LoginFacts.

(** ** Trends and bands of the metric cards *)

Section TrendFacts.
Import Dashboard.

Lemma previousData_short (sensorData : list SensorReading) :
  (length sensorData <= 1)%nat -> previousData sensorData = None.
Proof.
  intros H. unfold previousData.
  destruct (Nat.ltb_spec 1 (length sensorData)); [lia | reflexivity].
Qed.

Lemma previousData_snoc (history : list SensorReading) (a b : SensorReading) :
  previousData (history ++ [a; b]) = Some a.
Proof.
  unfold previousData. rewrite length_app. simpl.
  destruct (Nat.ltb_spec 1 (length history + 2)); [| lia].
  replace (length history + 2 - 2)%nat with (length history + 0)%nat by lia.
  rewrite nth_error_app2 by lia.
  replace (length history + 0 - length history)%nat with 0%nat by lia.
  reflexivity.
Qed.

(** The reading a trend is measured against is the last but one of the
    history; a history of fewer than two readings has none. *)
Theorem previousData_last_but_one :
  (forall history a b, previousData (history ++ [a; b]) = Some a) /\
  (forall sensorData,
     (length sensorData <= 1)%nat -> previousData sensorData = None).
Proof. split; [apply previousData_snoc | apply previousData_short]. Qed.

Lemma previousData_last_but_one_witness :
  previousData [Sample.reading_at "09:00" 100%float] = None.
Proof.
  apply (proj2 previousData_last_but_one). simpl. lia.
Defined.

(** With fewer than two readings in the history every card's trend is 0,
    whatever the latest reading: the card shows the neutral icon and
    prints no percentage. *)
Theorem short_history_neutral_trend
    (field : SensorReading -> float) (latestData : SensorReading)
    (sensorData : list SensorReading) :
  (length sensorData <= 1)%nat ->
  card_trend field latestData sensorData = 0%float /\
  MetricCard.getTrendIcon (card_trend field latestData sensorData)
    = MetricCard.Minus /\
  MetricCard.printsPercentage (card_trend field latestData sensorData) = false.
Proof.
  intros H. unfold card_trend. rewrite (previousData_short _ H). simpl.
  repeat split.
Qed.

Lemma short_history_neutral_trend_witness :
  card_trend generation (Sample.reading_at "09:05" 120%float)
             [Sample.reading_at "09:00" 100%float] = 0%float.
Proof.
  apply (short_history_neutral_trend generation
           (Sample.reading_at "09:05" 120%float)
           [Sample.reading_at "09:00" 100%float]).
  simpl. lia.
Defined.

End TrendFacts.

Section BandFacts.
Import SpecFloat.

Lemma SFcompare_refl (x : spec_float) :
  x <> S754_nan -> SFcompare x x = Some Eq.
Proof.
  destruct x as [s | s | | s m e]; simpl; intros H;
    try destruct s; try reflexivity; try (exfalso; exact (H eq_refl)).
  all: rewrite Z.compare_refl; fold (Pos.compare m m);
    rewrite Pos.compare_refl; reflexivity.
Qed.

(** The test [x !== x] singles out NaN. *)
Lemma is_nan_Prim2SF (v : float) :
  Js.is_nan v = true -> Prim2SF v = S754_nan.
Proof.
  unfold Js.is_nan. rewrite FloatAxioms.eqb_spec. unfold SFeqb. intros H.
  destruct (Prim2SF v) as [s | s | | s m e] eqn:E; [| | reflexivity |].
  all: rewrite SFcompare_refl in H by discriminate; discriminate H.
Qed.

(** NaN is neither above nor below anything. *)
Lemma nan_unordered (v a : float) :
  Js.is_nan v = true -> Dashboard.gt v a = false /\ Dashboard.lt v a = false.
Proof.
  intros H. apply is_nan_Prim2SF in H.
  unfold Dashboard.gt, Dashboard.lt. rewrite !ltb_spec. unfold SFltb.
  rewrite H. split; [destruct (Prim2SF a) |]; reflexivity.
Qed.

(** Applied to NaN, [getMetricStatus] of either dashboard answers [good]
    under every metric type it knows, never [warning] or [critical].
    (This is about the two functions; the cards of the comprehensive
    dashboard pass [value || 0], under which NaN arrives as 0.) *)
Theorem nan_reading_is_good (v : float) :
  Js.is_nan v = true ->
  Dashboard.getMetricStatus "temperature" v = "good" /\
  Dashboard.getMetricStatus "soc" v = "good" /\
  Dashboard.getMetricStatus "voltage" v = "good" /\
  ComprehensiveDashboard.getMetricStatus "temperature" v = "good" /\
  ComprehensiveDashboard.getMetricStatus "soc" v = "good" /\
  ComprehensiveDashboard.getMetricStatus "voltage" v = "good" /\
  ComprehensiveDashboard.getMetricStatus "pressure" v = "good".
Proof.
  intros H.
  unfold Dashboard.getMetricStatus, ComprehensiveDashboard.getMetricStatus.
  simpl.
  repeat match goal with
         | |- context [Dashboard.gt v ?a] =>
             rewrite (proj1 (nan_unordered v a H))
         | |- context [Dashboard.lt v ?a] =>
             rewrite (proj2 (nan_unordered v a H))
         end.
  repeat split.
Qed.

Lemma nan_reading_is_good_witness :
  Dashboard.getMetricStatus "temperature" nan = "good".
Proof.
  apply (proj1 (nan_reading_is_good nan eq_refl)).
Defined.

(** The bands of the comprehensive dashboard: a temperature is [critical]
    iff [v > 500] and [warning] iff [450 < v <= 500]; a pressure is
    [critical] iff [v > 20] and [warning] iff [15 < v <= 20]; charge and
    voltage have the bands of the plain dashboard; everything else of a
    known type is [good]. *)
Theorem ComprehensiveDashboard_bands (v : float) :
  ((ComprehensiveDashboard.getMetricStatus "temperature" v = "critical" <->
      Dashboard.gt v 500 = true) /\
   (ComprehensiveDashboard.getMetricStatus "temperature" v = "warning" <->
      Dashboard.gt v 450 = true /\ Spec.le v 500 = true) /\
   (ComprehensiveDashboard.getMetricStatus "temperature" v = "good" <->
      Dashboard.gt v 500 = false /\
      ~ (Dashboard.gt v 450 = true /\ Spec.le v 500 = true)))
  /\
  ((ComprehensiveDashboard.getMetricStatus "pressure" v = "critical" <->
      Dashboard.gt v 20 = true) /\
   (ComprehensiveDashboard.getMetricStatus "pressure" v = "warning" <->
      Dashboard.gt v 15 = true /\ Spec.le v 20 = true) /\
   (ComprehensiveDashboard.getMetricStatus "pressure" v = "good" <->
      Dashboard.gt v 20 = false /\
      ~ (Dashboard.gt v 15 = true /\ Spec.le v 20 = true)))
  /\ ComprehensiveDashboard.getMetricStatus "soc" v
       = Dashboard.getMetricStatus "soc" v
  /\ ComprehensiveDashboard.getMetricStatus "voltage" v
       = Dashboard.getMetricStatus "voltage" v.
Proof.
  split; [| split; [| split]].
  - apply (high_band v 500 450). vm_compute. discriminate.
  - apply (high_band v 20 15). vm_compute. discriminate.
  - reflexivity.
  - reflexivity.
Qed.

End BandFacts.

(** ** The alert page: counters, completeness and order *)

Section AlertListFacts.
Import AlertsPage.

Variable Date_time : string -> float.
Variable toLowerCase : string -> string.

Lemma filter_all {A} (f : A -> bool) (l : list A) :
  (forall x, f x = true) -> List.filter f l = l.
Proof.
  intros H. induction l as [| x l IH]; simpl; [reflexivity |].
  rewrite H, IH. reflexivity.
Qed.

Lemma filter_split_length {A} (f : A -> bool) (l : list A) :
  (length (List.filter (fun x => negb (f x)) l)
   + length (List.filter f l) = length l)%nat.
Proof.
  induction l as [| x l IH]; simpl; [reflexivity |].
  destruct (f x); simpl; lia.
Qed.

Lemma filter_split_Permutation {A} (f : A -> bool) (l : list A) :
  List.filter (fun x => negb (f x)) l ++ List.filter f l ≡ₚ l.
Proof.
  induction l as [| x l IH]; simpl; [reflexivity |].
  destruct (f x); simpl.
  - rewrite <- Permutation_middle. rewrite IH. reflexivity.
  - rewrite IH. reflexivity.
Qed.

(** The three counters of the page add up: every alert is counted as
    active or as resolved, never as both and never twice. *)
Theorem alert_counters (alerts : list Alert) :
  (length (activeAlerts alerts) + length (resolvedAlerts alerts)
   = length alerts)%nat /\
  activeAlerts alerts ++ resolvedAlerts alerts ≡ₚ alerts /\
  Forall (fun alert => resolved alert = false) (activeAlerts alerts) /\
  Forall (fun alert => resolved alert = true) (resolvedAlerts alerts).
Proof.
  unfold activeAlerts, resolvedAlerts. split; [| split; [| split]].
  - apply (filter_split_length resolved).
  - apply (filter_split_Permutation resolved).
  - apply Forall_forall. intros a Hin.
    apply list_elem_of_In, filter_In in Hin as [_ H].
    destruct (resolved a); [discriminate H | reflexivity].
  - apply Forall_forall. intros a Hin.
    apply list_elem_of_In, filter_In in Hin as [_ H]. exact H.
Qed.

(** The converse of [keep_sound]. *)
Lemma keep_complete (filter searchTerm : string) (alert : Alert) :
  Spec.status_matches filter alert ->
  (searchTerm = "" \/
   Spec.contains_ci toLowerCase (message alert) searchTerm \/
   Spec.contains_ci toLowerCase (alert_type alert) searchTerm \/
   Spec.contains_ci toLowerCase (severity alert) searchTerm) ->
  keep toLowerCase filter searchTerm alert = true.
Proof.
  unfold Spec.status_matches, Spec.contains_ci, keep. intros [Ha Hr] Hterm.
  destruct (String.eqb_spec filter "active") as [Hf | _]; simpl.
  { rewrite (Ha Hf). simpl. subst filter. simpl.
    destruct (String.eqb_spec searchTerm "") as [_ | Hne]; [reflexivity |].
    simpl. rewrite !orb_true_iff, !includes_spec. tauto. }
  destruct (String.eqb_spec filter "resolved") as [Hf | _]; simpl.
  { rewrite (Hr Hf). simpl.
    destruct (String.eqb_spec searchTerm "") as [_ | Hne]; [reflexivity |].
    simpl. rewrite !orb_true_iff, !includes_spec. tauto. }
  destruct (String.eqb_spec searchTerm "") as [_ | Hne]; [reflexivity |].
  simpl. rewrite !orb_true_iff, !includes_spec. tauto.
Qed.

(** The list shown holds exactly the alerts of the state that match the
    status filter and, under a non-empty search term, contain the term,
    ignoring case, in their message, type or severity: nothing that
    matches is left out. *)
Theorem shown_exactly (alerts : list Alert)
    (filter searchTerm sortBy : string) (alert : Alert) :
  In alert (filteredAndSortedAlerts Date_time toLowerCase alerts
              filter searchTerm sortBy) <->
  In alert alerts /\
  Spec.status_matches filter alert /\
  (searchTerm = "" \/
   Spec.contains_ci toLowerCase (message alert) searchTerm \/
   Spec.contains_ci toLowerCase (alert_type alert) searchTerm \/
   Spec.contains_ci toLowerCase (severity alert) searchTerm).
Proof.
  unfold filteredAndSortedAlerts.
  rewrite <- list_elem_of_In, sort_Permutation, list_elem_of_In, filter_In.
  split.
  - intros [Hin Hkeep]. split; [exact Hin |].
    destruct (keep_sound Date_time toLowerCase _ _ _ Hkeep) as (Ha & Hr & Ht).
    split; [split; assumption |].
    destruct (String.eqb_spec searchTerm "") as [-> | Hne]; auto.
  - intros (Hin & Hs & Ht). split; [exact Hin |].
    apply keep_complete; assumption.
Qed.

(** Without a search term the list shown is a rearrangement of the active
    alerts under the filter [active], of the resolved alerts under
    [resolved], and of all alerts under any other filter value: the rows
    under a filter are as many as its counter says. *)
Theorem shown_matches_counters (alerts : list Alert) (filter sortBy : string) :
  (filter = "active" ->
     filteredAndSortedAlerts Date_time toLowerCase alerts filter "" sortBy
       ≡ₚ activeAlerts alerts) /\
  (filter = "resolved" ->
     filteredAndSortedAlerts Date_time toLowerCase alerts filter "" sortBy
       ≡ₚ resolvedAlerts alerts) /\
  (filter <> "active" -> filter <> "resolved" ->
     filteredAndSortedAlerts Date_time toLowerCase alerts filter "" sortBy
       ≡ₚ alerts).
Proof.
  unfold filteredAndSortedAlerts, activeAlerts, resolvedAlerts.
  split; [| split].
  - intros ->. rewrite sort_Permutation.
    erewrite filter_ext; [reflexivity |].
    intros a. unfold keep. simpl. destruct (resolved a); reflexivity.
  - intros ->. rewrite sort_Permutation.
    erewrite filter_ext; [reflexivity |].
    intros a. unfold keep. simpl. destruct (resolved a); reflexivity.
  - intros Ha Hr. rewrite sort_Permutation, filter_all; [reflexivity |].
    intros a. unfold keep.
    destruct (String.eqb_spec filter "active"); [contradiction |].
    destruct (String.eqb_spec filter "resolved"); [contradiction |].
    reflexivity.
Qed.

End AlertListFacts.

Lemma shown_matches_counters_witness :
  AlertsPage.filteredAndSortedAlerts Sample.minutes Js.toLowerCase
    Sample.three_alerts "active" "" "newest"
  ≡ₚ AlertsPage.activeAlerts Sample.three_alerts.
Proof.
  apply (proj1 (shown_matches_counters Sample.minutes Js.toLowerCase
                  Sample.three_alerts "active" "newest")).
  reflexivity.
Defined.

Section SortOrder.
Context {A : Type} (comparefn : A -> A -> float) (R : A -> A -> Prop).

(** What the answers of the comparator mean for the order [R]. *)
Hypothesis after : forall x y,
  PrimFloat.ltb 0%float (comparefn x y) = true -> R y x.
Hypothesis before : forall x y,
  PrimFloat.ltb 0%float (comparefn x y) = false -> R x y.

Lemma insert_Sorted (x : A) (l : list A) :
  Sorted R l -> Sorted R (AlertsPage.insert comparefn x l).
Proof.
  induction l as [| y l IH]; intros Hs; simpl.
  - repeat constructor.
  - destruct (PrimFloat.ltb 0%float (comparefn x y)) eqn:E.
    + inversion Hs as [| ? ? Hl Hhd]; subst.
      constructor; [apply IH; exact Hl |].
      destruct l as [| z l]; simpl.
      * constructor. apply after. exact E.
      * destruct (PrimFloat.ltb 0%float (comparefn x z)).
        -- constructor. inversion Hhd; assumption.
        -- constructor. apply after. exact E.
    + constructor; [exact Hs |]. constructor. apply before. exact E.
Qed.

Lemma sort_Sorted (l : list A) : Sorted R (AlertsPage.sort comparefn l).
Proof.
  induction l as [| x l IH]; simpl; [constructor |].
  apply insert_Sorted. exact IH.
Qed.

End SortOrder.

Section SeverityOrder.
Import AlertsPage.

Lemma severityOrder_lookup (k : string) :
  severityOrder !! k =
    if String.eqb k "critical" then Some 4%float
    else if String.eqb k "high" then Some 3%float
    else if String.eqb k "medium" then Some 2%float
    else if String.eqb k "low" then Some 1%float
    else None.
Proof.
  unfold severityOrder.
  destruct (String.eqb_spec k "critical") as [-> | H1]; [reflexivity |].
  rewrite lookup_insert_ne by congruence.
  destruct (String.eqb_spec k "high") as [-> | H2]; [reflexivity |].
  rewrite lookup_insert_ne by congruence.
  destruct (String.eqb_spec k "medium") as [-> | H3]; [reflexivity |].
  rewrite lookup_insert_ne by congruence.
  destruct (String.eqb_spec k "low") as [-> | H4]; [reflexivity |].
  apply lookup_singleton_ne; congruence.
Qed.

(** A severity has one of the four ranks or, when it is not in the table,
    the rank NaN. *)
Lemma severity_rank_cases (k : string) :
  severity_rank k = 4%float \/ severity_rank k = 3%float \/
  severity_rank k = 2%float \/ severity_rank k = 1%float \/
  severity_rank k = nan.
Proof.
  unfold severity_rank, Js.literal_get. rewrite severityOrder_lookup.
  destruct (String.eqb k "critical"); [auto |].
  destruct (String.eqb k "high"); [auto |].
  destruct (String.eqb k "medium"); [auto |].
  destruct (String.eqb k "low"); [auto 6 |].
  do 4 right. unfold Js.Object_prototype_get.
  repeat match goal with |- context [if ?b then _ else _] => destruct b end;
    reflexivity.
Qed.

Lemma by_severity_after (x y : string) :
  PrimFloat.ltb 0%float (severity_rank y - severity_rank x)%float = true ->
  PrimFloat.ltb (severity_rank y) (severity_rank x) = false.
Proof.
  destruct (severity_rank_cases x) as [-> | [-> | [-> | [-> | ->]]]];
  destruct (severity_rank_cases y) as [-> | [-> | [-> | [-> | ->]]]];
    vm_compute; congruence.
Qed.

Lemma by_severity_before (x y : string) :
  PrimFloat.ltb 0%float (severity_rank y - severity_rank x)%float = false ->
  PrimFloat.ltb (severity_rank x) (severity_rank y) = false.
Proof.
  destruct (severity_rank_cases x) as [-> | [-> | [-> | [-> | ->]]]];
  destruct (severity_rank_cases y) as [-> | [-> | [-> | [-> | ->]]]];
    vm_compute; congruence.
Qed.

Lemma known_rank (k : string) :
  Spec.known_severity k ->
  severity_rank k = 4%float \/ severity_rank k = 3%float \/
  severity_rank k = 2%float \/ severity_rank k = 1%float.
Proof.
  unfold Spec.known_severity.
  intros [-> | [-> | [-> | ->]]]; vm_compute; auto.
Qed.

(** On severities of the table the comparator is a total preorder:
    [not_outranked] is transitive there. *)
Lemma not_outranked_trans (a b c : Alert) :
  Spec.known_severity (severity a) -> Spec.known_severity (severity b) ->
  Spec.known_severity (severity c) ->
  Spec.not_outranked a b -> Spec.not_outranked b c -> Spec.not_outranked a c.
Proof.
  unfold Spec.not_outranked. intros Ha Hb Hc.
  destruct (known_rank _ Ha) as [-> | [-> | [-> | ->]]];
  destruct (known_rank _ Hb) as [-> | [-> | [-> | ->]]];
  destruct (known_rank _ Hc) as [-> | [-> | [-> | ->]]];
    vm_compute; congruence.
Qed.

Lemma Sorted_known (l : list Alert) :
  Forall (fun a => Spec.known_severity (severity a)) l ->
  Sorted Spec.not_outranked l -> StronglySorted Spec.not_outranked l.
Proof.
  induction l as [| a l IH]; intros Hk Hs; [constructor |].
  apply Forall_cons in Hk as [Ha Hk].
  inversion Hs as [| ? ? Hl Hhd]; subst.
  specialize (IH Hk Hl). constructor; [exact IH |].
  destruct l as [| b l]; [constructor |].
  inversion Hhd as [| ? ? Hab]; subst.
  inversion IH as [| ? ? _ Hb]; subst.
  apply Forall_cons in Hk as [Hkb Hk].
  constructor; [exact Hab |].
  clear - Ha Hkb Hk Hab Hb.
  induction l as [| c l IHl]; [constructor |].
  apply Forall_cons in Hk as [Hc Hk].
  apply Forall_cons in Hb as [Hbc Hb].
  constructor; [| apply IHl; assumption].
  exact (not_outranked_trans a b c Ha Hkb Hc Hab Hbc).
Qed.

(** When every alert carries a severity of the table ([critical], [high],
    [medium], [low]) the comparator of the sort key [severity] is
    consistent, and the list shown is in descending order of rank: no
    alert comes anywhere before one that outranks it. *)
Theorem shown_by_severity
    (Date_time : string -> float) (toLowerCase : string -> string)
    (alerts : list Alert) (filter searchTerm : string) :
  Forall (fun a => Spec.known_severity (severity a)) alerts ->
  StronglySorted Spec.not_outranked
    (filteredAndSortedAlerts Date_time toLowerCase alerts
       filter searchTerm "severity").
Proof.
  intros Hk. apply Sorted_known.
  - apply Forall_forall. intros a Ha.
    rewrite Forall_forall in Hk. apply Hk.
    unfold filteredAndSortedAlerts in Ha.
    rewrite (sort_Permutation _ _) in Ha.
    apply list_elem_of_In, filter_In in Ha as [Ha _].
    apply list_elem_of_In. exact Ha.
  - unfold filteredAndSortedAlerts. apply sort_Sorted.
    + intros x y. unfold compare, Spec.not_outranked. simpl.
      apply by_severity_after.
    + intros x y. unfold compare, Spec.not_outranked. simpl.
      apply by_severity_before.
Qed.

Lemma shown_by_severity_witness :
  map AlertsPage.id
    (filteredAndSortedAlerts Sample.minutes Js.toLowerCase Sample.three_alerts
       "all" "" "severity")
  = [1; 3; 2]%Z /\
  StronglySorted Spec.not_outranked
    (filteredAndSortedAlerts Sample.minutes Js.toLowerCase Sample.three_alerts
       "all" "" "severity").
Proof.
  split; [reflexivity |].
  apply (shown_by_severity Sample.minutes Js.toLowerCase Sample.three_alerts
           "all" "").
  unfold Sample.three_alerts, Spec.known_severity.
  repeat (apply Forall_cons; split; [simpl; auto |]).
  apply Forall_nil. exact I.
Defined.

End SeverityOrder.

(** ** The alert pages over time *)

Section AlertPageRuns.
Import Eff Api.

Lemma AlertsPage_handle_keeps_list (e : AlertsPage.Event) (s : AlertsPage.State) :
  Js.isArray (AlertsPage.alerts s) = true ->
  Js.isArray (AlertsPage.alerts (exec (AlertsPage.handle e) s)) = true.
Proof.
  intros H. destruct e as [g | r g | t | v | v]; simpl; try exact H.
  - destruct g as [response | err]; [| reflexivity].
    apply AlertsPage_normalize_isArray.
  - destruct r as [ack | err]; [| exact H].
    destruct g as [response | err']; [| reflexivity].
    apply AlertsPage_normalize_isArray.
Qed.

Lemma AlertsPage_handle_keeps_loaded (e : AlertsPage.Event) (s : AlertsPage.State) :
  AlertsPage.loading s = false ->
  AlertsPage.loading (exec (AlertsPage.handle e) s) = false.
Proof.
  intros H. destruct e as [g | r g | t | v | v]; simpl; try exact H.
  - destruct g; reflexivity.
  - destruct r as [ack | err]; [| exact H]. destruct g; reflexivity.
Qed.

(** Whatever happens to a mounted alert page, in any order and with any
    replies of the backend, its [alerts] state is a list at all times; and
    once a fetch has settled the page never returns to its loading
    state. *)
Theorem AlertsPage_always_list (events : list AlertsPage.Event) :
  Js.isArray (AlertsPage.alerts (AlertsPage.run events AlertsPage.initial))
    = true /\
  (forall getAlerts later,
     AlertsPage.loading
       (AlertsPage.run (events ++ AlertsPage.Refresh getAlerts :: later)
                       AlertsPage.initial) = false).
Proof.
  assert (Hlist : forall evs s,
    Js.isArray (AlertsPage.alerts s) = true ->
    Js.isArray (AlertsPage.alerts (AlertsPage.run evs s)) = true).
  { induction evs as [| e evs IH]; intros s H; simpl; [exact H |].
    apply IH, AlertsPage_handle_keeps_list, H. }
  assert (Hloaded : forall evs s,
    AlertsPage.loading s = false ->
    AlertsPage.loading (AlertsPage.run evs s) = false).
  { induction evs as [| e evs IH]; intros s H; simpl; [exact H |].
    apply IH, AlertsPage_handle_keeps_loaded, H. }
  split; [apply Hlist; reflexivity |].
  intros g later. unfold AlertsPage.run. rewrite fold_left_app. simpl.
  apply Hloaded. destruct g; reflexivity.
Qed.

Lemma AlertsPageSimple_handle_keeps_list
    (e : AlertsPageSimple.Event) (s : AlertsPageSimple.State) :
  Js.isArray (AlertsPageSimple.alerts s) = true ->
  Js.isArray (AlertsPageSimple.alerts (exec (AlertsPageSimple.handle e) s))
    = true.
Proof.
  assert (Hfetch : forall reply s0,
    Js.isArray
      (AlertsPageSimple.alerts (exec (AlertsPageSimple.fetchAlerts reply) s0))
      = true).
  { intros reply s0.
    destruct reply as [[[] line [body | err]] | err]; try reflexivity.
    destruct body; reflexivity. }
  intros H. destruct e as [reply | resolve reply]; simpl; [apply Hfetch |].
  destruct resolve as [[[] line js] | err]; try exact H.
  destruct reply as [[[] line' [body | err']] | err']; try reflexivity.
  destruct body; reflexivity.
Qed.

(** The same for the simple alert page, whose render calls [filter] and
    [slice] on the state: [alerts] is a list at all times, and a resolve
    request that fails or is refused changes nothing. *)
Theorem AlertsPageSimple_always_list (events : list AlertsPageSimple.Event) :
  Js.isArray
    (AlertsPageSimple.alerts
       (AlertsPageSimple.run events AlertsPageSimple.initial)) = true /\
  (forall resolve reply s,
     (forall response,
        resolve = Js.Fulfilled response ->
        AlertsPageSimple.ok response = false) ->
     exec (AlertsPageSimple.handleResolveAlert resolve reply) s = s).
Proof.
  split.
  - assert (Hlist : forall evs s,
      Js.isArray (AlertsPageSimple.alerts s) = true ->
      Js.isArray (AlertsPageSimple.alerts (AlertsPageSimple.run evs s)) = true).
    { induction evs as [| e evs IH]; intros s H; simpl; [exact H |].
      apply IH, AlertsPageSimple_handle_keeps_list, H. }
    apply Hlist. reflexivity.
  - intros resolve reply s H. destruct resolve as [response | err];
      [| reflexivity].
    unfold exec, AlertsPageSimple.handleResolveAlert, try_catch, bind. simpl.
    rewrite (H response eq_refl). reflexivity.
Qed.

End AlertPageRuns.

(** ** The AI insights *)

Section AIInsightsFacts.
Import Eff Api AIInsights.

(** One failing request (the network, or a body that is not JSON)
    discards the whole cycle of the AI insights: none of the five entities
    changes, and no error is recorded anywhere, only [loading] ends.  When
    all five bodies parse they are stored, also the bodies of replies whose
    status is an error, since [ok] is never read. *)
Theorem fetchAIData_all_or_nothing (c : Cycle) (s : State) :
  fst (fetchAIData c s) = Normal tt /\
  loading (exec (fetchAIData c) s) = false /\
  ((exists e, Js.Rejected e ∈ promises c) ->
     exec (fetchAIData c) s =
       mkState (faultDetection s) (gridSwitching s) (solarPredictions s)
               (loadManagement s) (loadPredictions s) false) /\
  (forall v1 v2 v3 v4 v5,
     promises c = map Js.Fulfilled [v1; v2; v3; v4; v5] ->
     exec (fetchAIData c) s = mkState v1 v2 v3 v4 v5 false) /\
  (forall o1 o2 o3 o4 o5 v1 v2 v3 v4 v5,
     exec (fetchAIData
             (mkCycle (Js.Fulfilled (mkResponse o1 (Js.Fulfilled v1)))
                      (Js.Fulfilled (mkResponse o2 (Js.Fulfilled v2)))
                      (Js.Fulfilled (mkResponse o3 (Js.Fulfilled v3)))
                      (Js.Fulfilled (mkResponse o4 (Js.Fulfilled v4)))
                      (Js.Fulfilled (mkResponse o5 (Js.Fulfilled v5))))) s
       = mkState v1 v2 v3 v4 v5 false).
Proof.
  assert (Hrej : forall e, Promise_all (promises c) = Js.Rejected e ->
    fetchAIData c s =
      (Normal tt,
       mkState (faultDetection s) (gridSwitching s) (solarPredictions s)
               (loadManagement s) (loadPredictions s) false)).
  { intros e H. unfold fetchAIData, try_catch, bind.
    cbn -[promises Promise_all]. rewrite H. reflexivity. }
  assert (Hful : forall l, Promise_all (promises c) = Js.Fulfilled l ->
    fetchAIData c s =
      (Normal tt,
       mkState (nth 0 l Js.Undefined) (nth 1 l Js.Undefined)
               (nth 2 l Js.Undefined) (nth 3 l Js.Undefined)
               (nth 4 l Js.Undefined) false)).
  { intros l H. unfold fetchAIData, try_catch, bind.
    cbn -[promises Promise_all nth]. rewrite H. reflexivity. }
  split; [| split; [| split; [| split]]].
  - destruct (Promise_all (promises c)) as [l | e];
      [rewrite (Hful l eq_refl) | rewrite (Hrej e eq_refl)]; reflexivity.
  - unfold exec.
    destruct (Promise_all (promises c)) as [l | e];
      [rewrite (Hful l eq_refl) | rewrite (Hrej e eq_refl)]; reflexivity.
  - intros [e He]. destruct (Promise_all_rejected _ _ He) as [e' He'].
    unfold exec. rewrite (Hrej e' He'). reflexivity.
  - intros v1 v2 v3 v4 v5 H. unfold exec.
    rewrite (Hful [v1; v2; v3; v4; v5]); [reflexivity |].
    rewrite H. apply Promise_all_fulfilled.
  - intros. reflexivity.
Qed.

Lemma fetchAIData_all_or_nothing_witness :
  exec (fetchAIData
          (mkCycle Sample.failing_reply
                   (Js.Rejected (Js.mkError "Failed to fetch"))
                   Sample.failing_reply Sample.failing_reply
                   Sample.failing_reply)) initial
    = mkState Js.Null Js.Null Js.Null Js.Null Js.Null false.
Proof.
  refine (proj1 (proj2 (proj2 (fetchAIData_all_or_nothing _ initial))) _).
  exists (Js.mkError "Failed to fetch").
  apply list_elem_of_further, list_elem_of_here.
Defined.

End AIInsightsFacts.

(** ** Sessions the application can reach *)

Section ReachableFacts.
Import Eff AuthStore.

(** An admin passes every role check an operator passes, whatever is
    required. *)
Theorem admin_subsumes_operator (required : string) (s_op s_admin : AuthState)
    (u_op u_admin : User) :
  user s_op = Some u_op -> role u_op = Some "operator" ->
  user s_admin = Some u_admin -> role u_admin = Some "admin" ->
  hasRole required s_op = true -> hasRole required s_admin = true.
Proof.
  unfold hasRole. intros -> -> -> ->. simpl.
  change (Js.literal_get roleHierarchy "operator") with (Js.SNum 1%float).
  change (Js.literal_get roleHierarchy "admin") with (Js.SNum 2%float).
  pose proof (literal_get_rank required) as Hr.
  destruct (Spec.rank required) as [q |] eqn:Hq.
  - destruct (rank_cases _ _ Hq) as [[_ ->] | [_ ->]]; rewrite Hr;
      [reflexivity | intros H; vm_compute in H; discriminate H].
  - rewrite (ge_num_left _ _ Hr). discriminate.
Qed.

Lemma admin_subsumes_operator_witness :
  hasRole "operator" (Sample.session "admin") = true.
Proof.
  eapply (admin_subsumes_operator "operator" (Sample.session "operator")
            (Sample.session "admin"));
    reflexivity.
Defined.

Lemma session_refuses_unknown (r required : string) :
  In r LoginForm.demo_roles ->
  Spec.rank required = None ->
  hasRole required (Sample.session r) = false.
Proof.
  intros Hr Hreq. pose proof (literal_get_rank required) as Hnum.
  rewrite Hreq in Hnum.
  destruct Hr as [<- | [<- | []]]; unfold hasRole; simpl;
    [change (Js.literal_get roleHierarchy "operator") with (Js.SNum 1%float)
    |change (Js.literal_get roleHierarchy "admin") with (Js.SNum 2%float)];
    apply ge_num_left; exact Hnum.
Qed.

(** Through its screens the application only ever holds three sessions:
    none (the fresh store), the mock operator and the mock admin; the
    store is never left loading and the current view is one of the four
    of the navigation.  On these sessions [hasRole] refuses every
    required role outside the hierarchy. *)
Theorem reachable_sessions (st : App.State) :
  App.reachable st ->
  (App.auth st = AuthStore.initial \/
   App.auth st = Sample.session "operator" \/
   App.auth st = Sample.session "admin") /\
  In (App.currentView st) ["dashboard"; "analytics"; "alerts"; "settings"] /\
  (forall required,
     Spec.rank required = None -> hasRole required (App.auth st) = false).
Proof.
  intros Hreach.
  assert (Hinv :
    (App.auth st = AuthStore.initial \/
     App.auth st = Sample.session "operator" \/
     App.auth st = Sample.session "admin") /\
    In (App.currentView st) ["dashboard"; "analytics"; "alerts"; "settings"]).
  { induction Hreach as [| st e _ [Hauth Hview] Hoff].
    - split; [left; reflexivity | simpl; auto].
    - destruct e as [item | | | selectedRole]; simpl.
      + split; [exact Hauth |].
        unfold App.offered in Hoff. destruct (App.render st); try contradiction.
        apply (in_map Navigation.id) in Hoff.
        rewrite filteredNavItems_by_rank in Hoff.
        destruct (Spec.session_rank (App.auth st)) as [p |]; [| destruct Hoff].
        destruct (2 <=? p)%Z; simpl in Hoff |- *; tauto.
      + split; [exact Hauth | simpl; auto].
      + split; [| exact Hview]. left.
        destruct Hauth as [-> | [-> | ->]]; reflexivity.
      + split; [| exact Hview].
        unfold App.offered in Hoff. destruct (App.render st); try contradiction.
        destruct Hoff as [<- | [<- | []]];
          destruct Hauth as [-> | [-> | ->]]; auto. }
  destruct Hinv as [Hauth Hview]. split; [exact Hauth | split; [exact Hview |]].
  intros required Hreq. destruct Hauth as [-> | [-> | ->]].
  - reflexivity.
  - apply session_refuses_unknown; simpl; auto.
  - apply session_refuses_unknown; simpl; auto.
Qed.

Lemma reachable_sessions_witness :
  hasRole "toString"
    (App.auth (App.handle (App.LoginSubmitted "admin") App.initial)) = false.
Proof.
  refine (proj2 (proj2 (reachable_sessions _ _)) "toString" eq_refl).
  apply App.reachable_step; [apply App.reachable_initial |].
  simpl. auto.
Defined.

End ReachableFacts.

Lemma login_outcome_witness :
  AuthStore.isLoading
    (Eff.exec (AuthStore.login Sample.demo_backend "admin" "wrong")
              (Sample.session "operator")) = false.
Proof.
  destruct (login_outcome Sample.demo_backend "admin" "wrong"
              (Sample.session "operator")) as (r & _ & H & _).
  exact H.
Defined.
